(** * generate_vpm_index.py: the VPM index generator

    A shallow embedding of [src/generate_vpm_index.py] and the properties
    its specification states about it.

    Modelling decisions, in the order the code meets them:
    - a Python [str] is the [string] of the bytes of its UTF-8 encoding (a
      lone surrogate is encoded like any other code point), so a character
      of ASCII is one [ascii] and any other character is two to four.  The
      [str] operations the program uses ([startswith], [endswith], [in],
      [replace], concatenation, equality) give the same answers on the
      encodings.  The regex class [\d] accepts every Unicode decimal digit:
      the ASCII digits, and the characters outside ASCII that the
      interpreter's Unicode database lists, which is a parameter
      ([Unicode]);
    - the value a [json.loads] call can return is a [json] term; Python's
      [None] is [JNull].  Numbers are Python ints ([Z]); JSON numbers with a
      fraction or an exponent are not modelled;
    - a zip archive is the list of its central-directory entries, each with
      the outcome of [json.loads(z.read(name).decode('utf-8'))];
    - [print] is an append to a log of events.  A console that rejects a
      line ([UnicodeEncodeError]) and a directory that cannot be listed
      ([PermissionError]) are not modelled: the scan of the model is the
      scan of a run in which every [os.listdir] and every [print] succeeds;
    - [scan_packages] either returns the package mapping or lets an
      exception of the per-file code escape, so its result is a sum. *)

From Stdlib Require Import String Ascii ZArith Lia Bool.
From stdpp Require Import base option gmap strings list pretty.

Set Warnings "-register-all".
Open Scope string_scope.
#[global] Arguments String.append : simpl nomatch.

(** ** Python [str] operations used by the program *)

Module PyStr.

(** The one-character string holding a line feed. *)
Definition LF : string := String "010" "".

(** [s.startswith(p)] *)
Fixpoint startswith (s p : string) {struct p} : bool :=
  match p, s with
  | EmptyString, _ => true
  | String a p', String b s' => if Ascii.eqb a b then startswith s' p' else false
  | String _ _, EmptyString => false
  end.

(** [s.endswith(p)]: some tail of [s] is [p]. *)
Fixpoint endswith (s p : string) : bool :=
  String.eqb s p ||
  match s with
  | EmptyString => false
  | String _ s' => endswith s' p
  end.

(** [sub in s]: [sub] starts at some position of [s]. *)
Fixpoint contains (s sub : string) : bool :=
  startswith s sub ||
  match s with
  | EmptyString => false
  | String _ s' => contains s' sub
  end.

(** [s[n:]] *)
Fixpoint drop (n : nat) (s : string) : string :=
  match n, s with
  | O, _ => s
  | S _, EmptyString => EmptyString
  | S k, String _ s' => drop k s'
  end.

(** [s.replace(old, new)] for a non-empty [old]: occurrences are replaced
    from left to right and never overlap.  [skip] counts the characters of
    the occurrence just replaced that are still to be passed over. *)
Fixpoint replace_from (old new : string) (skip : nat) (s : string) : string :=
  match s with
  | EmptyString => EmptyString
  | String c s' =>
      match skip with
      | S k => replace_from old new k s'
      | O =>
          if startswith s old
          then new ++ replace_from old new (String.length old - 1) s'
          else String c (replace_from old new 0 s')
      end
  end.

(** [s.replace('', new)] puts [new] before every character and at the end. *)
Fixpoint intersperse (new s : string) : string :=
  new ++ match s with
         | EmptyString => EmptyString
         | String c s' => String c (intersperse new s')
         end.

Definition replace (s old new : string) : string :=
  match old with
  | EmptyString => intersperse new s
  | String _ _ => replace_from old new 0 s
  end.

(** Whether the character [c] occurs in [s]. *)
Fixpoint has_char (c : ascii) (s : string) : bool :=
  match s with
  | EmptyString => false
  | String a s' => Ascii.eqb a c || has_char c s'
  end.

End PyStr.

(** ** The regular expression [-(\d+\.\d+\.\d+)\.zip$] *)

(** The interpreter's Unicode database, as far as the pattern consults it:
    whether the character with the given encoding is a decimal digit
    (general category Nd).  It is consulted for characters outside ASCII
    only; the ASCII decimal digits are ['0'..'9'] in every version of the
    database. *)
Class Unicode := { unicode_decimal : string -> bool }.

Module Re.
Import PyStr.

(** ['0'..'9'], the decimal digits of ASCII. *)
Definition is_ascii_digit (c : ascii) : bool :=
  (48 <=? N_of_ascii c)%N && (N_of_ascii c <=? 57)%N.

(** A byte that continues a character of several bytes. *)
Definition is_continuation (c : ascii) : bool :=
  (128 <=? N_of_ascii c)%N && (N_of_ascii c <=? 191)%N.

(** The number of bytes that follow [c] when [c] starts a character of
    several bytes. *)
Definition followers (c : ascii) : option nat :=
  let n := N_of_ascii c in
  if (192 <=? n)%N && (n <=? 223)%N then Some 1
  else if (224 <=? n)%N && (n <=? 239)%N then Some 2
  else if (240 <=? n)%N && (n <=? 247)%N then Some 3
  else None.

(** The first [n] bytes of [s], when they all continue a character. *)
Fixpoint continuation (n : nat) (s : string) : option string :=
  match n, s with
  | O, _ => Some EmptyString
  | S k, String c s' =>
      if is_continuation c
      then t ← continuation k s'; Some (String c t)
      else None
  | S _, EmptyString => None
  end.

(** The character outside ASCII at the head of [s]. *)
Definition wide_char (s : string) : option string :=
  match s with
  | EmptyString => None
  | String c s' => n ← followers c; t ← continuation n s'; Some (String c t)
  end.

(** A literal piece of the pattern. *)
Definition lit (p s : string) : option string :=
  if startswith s p then Some (drop (String.length p) s) else None.

(** [$] without [re.MULTILINE]: the end of the string, or the position just
    before a line feed that is the string's last character. *)
Definition at_end (s : string) : bool :=
  String.eqb s "" || String.eqb s LF.

Section Pattern.
Context {db : Unicode}.

(** A decimal digit outside ASCII at the head of [s]. *)
Definition wide_digit (s : string) : option string :=
  ch ← wide_char s; if unicode_decimal ch then Some ch else None.

(** The longest run of characters [\d] accepts at the head of [s], and what
    follows it.  On a [str] pattern [\d] accepts every Unicode decimal
    digit.  [skip] counts the bytes still to be taken of the digit that was
    recognised last. *)
Fixpoint span_from (skip : nat) (s : string) : string * string :=
  match s with
  | EmptyString => (EmptyString, EmptyString)
  | String c s' =>
      match skip with
      | S k => let (d, r) := span_from k s' in (String c d, r)
      | O =>
          if is_ascii_digit c
          then let (d, r) := span_from 0 s' in (String c d, r)
          else
            match wide_digit s with
            | Some ch =>
                let (d, r) := span_from (String.length ch - 1) s' in
                (String c d, r)
            | None => (EmptyString, s)
            end
      end
  end.

Definition span_digits (s : string) : string * string := span_from 0 s.

(** [\d+], greedy.  In the pattern every [\d+] is followed by [\.], which no
    digit matches, so giving characters back never helps a match. *)
Definition digits1 (s : string) : option (string * string) :=
  match span_digits s with
  | (EmptyString, _) => None
  | (d, r) => Some (d, r)
  end.

(** The whole pattern tried at the head of [s]; the result is group 1. *)
Definition match_version_at (s : string) : option string :=
  r0 ← lit "-" s;
  '(x, r1) ← digits1 r0;
  r2 ← lit "." r1;
  '(y, r3) ← digits1 r2;
  r4 ← lit "." r3;
  '(z, r5) ← digits1 r4;
  r6 ← lit ".zip" r5;
  if at_end r6 then Some (x ++ "." ++ y ++ "." ++ z) else None.

(** [re.search]: the leftmost position where the pattern matches. *)
Fixpoint search_version (s : string) : option string :=
  match match_version_at s with
  | Some v => Some v
  | None =>
      match s with
      | EmptyString => None
      | String _ s' => search_version s'
      end
  end.

End Pattern.

End Re.

(** ** Version Extractor *)

Section VersionExtractorDef.
Context {db : Unicode}.

(** [extract_version_from_filename]: [None] is Python's [None]. *)
Definition extract_version_from_filename (filename : string) : option string :=
  match Re.search_version filename with
  | Some group1 => Some group1
  | None => None
  end.

(** One character that [\d] accepts: an ASCII digit, or a character outside
    ASCII that the Unicode database classifies as a decimal digit. *)
Inductive digit_char : string -> Prop :=
  | digit_ascii (c : ascii) :
      Re.is_ascii_digit c = true -> digit_char (String c "")
  | digit_wide (ch : string) :
      Re.wide_char ch = Some ch -> unicode_decimal ch = true -> digit_char ch.

(** A sequence of digits. *)
Inductive digits : string -> Prop :=
  | digits_nil : digits ""
  | digits_cons (ch s : string) :
      digit_char ch -> digits s -> digits (ch ++ s).

(** A non-empty sequence of digits. *)
Definition digit_seq (s : string) : Prop :=
  s <> "" /\ digits s.

(** [v] is [X.Y.Z] for three digit sequences. *)
Definition dotted_version (v : string) : Prop :=
  exists x y z, digit_seq x /\ digit_seq y /\ digit_seq z /\
                v = x ++ "." ++ y ++ "." ++ z.

(** [filename] ends with [-v.zip] followed by [tail]. *)
Definition version_suffix (filename v tail : string) : Prop :=
  dotted_version v /\ exists pre, filename = pre ++ "-" ++ v ++ ".zip" ++ tail.

(** [filename] ends with [-X.Y.Z.zip] for some version. *)
Definition ends_with_version (filename : string) : Prop :=
  exists v, version_suffix filename v "".

End VersionExtractorDef.

(** ** Python values *)

(** What [json.loads] returns.  [JObj] is a [dict]: its binding for a key is
    the first pair with that key. *)
Inductive json :=
| JNull
| JBool (b : bool)
| JInt (n : Z)
| JStr (s : string)
| JArr (items : list json)
| JObj (fields : list (string * json)).

Abbreviation pydict := (list (string * json)).

Module Dict.

(** The binding of [k], if the dict has the key. *)
Fixpoint lookup (d : pydict) (k : string) : option json :=
  match d with
  | [] => None
  | (k', v) :: d' => if String.eqb k' k then Some v else lookup d' k
  end.

(** [d.get(k)] *)
Definition get (d : pydict) (k : string) : json :=
  match lookup d k with
  | Some v => v
  | None => JNull
  end.


(** [d[k] = v]: the value changes in place, or a new key goes last. *)
Fixpoint set (d : pydict) (k : string) (v : json) : pydict :=
  match d with
  | [] => [(k, v)]
  | (k', v') :: d' =>
      if String.eqb k' k then (k', v) :: d' else (k', v') :: set d' k v
  end.

End Dict.

(** [bool(v)] *)
Definition truthy (v : json) : bool :=
  match v with
  | JNull => false
  | JBool b => b
  | JInt n => negb (n =? 0)%Z
  | JStr s => negb (String.eqb s "")
  | JArr items => match items with [] => false | _ :: _ => true end
  | JObj fields => match fields with [] => false | _ :: _ => true end
  end.

(** Dictionary keys, up to Python's [==]: [True] and [1] are one key. *)
Inductive pykey :=
| KNone
| KInt (n : Z)
| KStr (s : string).

#[global] Instance pykey_eq_dec : EqDecision pykey.
Proof. solve_decision. Defined.

#[global] Instance pykey_countable : Countable pykey.
Proof.
  refine (inj_countable'
    (fun k => match k with
              | KNone => inl ()
              | KInt n => inr (inl n)
              | KStr s => inr (inr s)
              end)
    (fun x => match x with
              | inl _ => KNone
              | inr (inl n) => KInt n
              | inr (inr s) => KStr s
              end) _).
  by intros [].
Defined.

(** The key a value hashes to; lists and dicts are unhashable. *)
Definition hash_key (v : json) : option pykey :=
  match v with
  | JNull => Some KNone
  | JBool b => Some (KInt (if b then 1 else 0))
  | JInt n => Some (KInt n)
  | JStr s => Some (KStr s)
  | JArr _ | JObj _ => None
  end.

(** Exceptions that the scanner does not catch. *)
Inductive exn :=
| AttributeError
| TypeError
| KeyError
| ValueError.

Inductive result (A : Type) :=
| Ok (a : A)
| Raise (e : exn).
Arguments Ok {A} a.
Arguments Raise {A} e.

(** A [for] loop whose body may raise: the first exception ends the loop. *)
Fixpoint for_each {A S : Type} (body : S -> A -> result S) (st : S) (l : list A)
  : result S :=
  match l with
  | [] => Ok st
  | x :: l' =>
      match body st x with
      | Ok st' => for_each body st' l'
      | Raise e => Raise e
      end
  end.

(** ** [str.format] *)

Module Format.

(** [template.format(k1=v1, ...)] for a template without [{{], [}}] or format
    specs; the keyword values are already formatted.  [field] is the name of
    the replacement field being read, if the scan is inside braces.  [None]
    is a [KeyError] or [ValueError]. *)
Fixpoint go (kwargs : list (string * string)) (field : option string)
  (template : string) : option string :=
  match template with
  | EmptyString =>
      match field with
      | None => Some EmptyString
      | Some _ => None
      end
  | String c t =>
      match field with
      | None =>
          if Ascii.eqb c "{" then go kwargs (Some EmptyString) t
          else String c <$> go kwargs None t
      | Some name =>
          if Ascii.eqb c "}"
          then
            v ← (snd <$> List.find (fun kv => String.eqb (fst kv) name) kwargs);
            rest ← go kwargs None t;
            Some (v ++ rest)
          else go kwargs (Some (name ++ String c EmptyString)) t
      end
  end.

Definition format (template : string) (kwargs : list (string * string))
  : option string :=
  go kwargs None template.

End Format.

(** ** Constants *)

Definition DOWNLOAD_URL_BASE : string :=
  "https://raw.githubusercontent.com/cielo-h/vpmRepo/master/{plugin_name}/{filename}".

(** The template up to its first replacement field. *)
Definition url_prefix : string :=
  "https://raw.githubusercontent.com/cielo-h/vpmRepo/master/".

Record repo_info := {
  ri_name : string;
  ri_id : string;
  ri_url : string;
  ri_author : string
}.

Definition REPO_INFO : repo_info := {|
  ri_name := "Cielo Repo";
  ri_id := "vpm.cielo-h";
  ri_url := "https://cielo-h.github.io/vpmRepo/index.json";
  ri_author := "cielo-h"
|}.

(** ** Archives and the scanned tree *)

(** [json.loads(z.read(name).decode('utf-8'))] for one entry: an exception
    (bad CRC, bytes that are not UTF-8, text that is not JSON) or a value. *)
Inductive read_result :=
| ReadRaises
| ReadOk (data : json).

(** The entries of an opened archive, in central-directory order. *)
Abbreviation archive := (list (string * read_result)).

(** What [ZipFile(zip_path, 'r')] does. *)
Inductive zipfile :=
| NotAZip
| Zip (entries : archive).

(** A name that [os.listdir('.')] returns. *)
Inductive node :=
| NotDir
| Dir (listing : list (string * zipfile)).

(** [os.listdir('.')] in iteration order. *)
Abbreviation tree := (list (string * node)).

(** ** What the program prints *)

Inductive event :=
| ScanningDirectory (plugin_dir : string)
| WarnNoVersion (filename : string)
| WarnNoPackageJson (zip_path : string)
| ErrorReading (zip_path : string)
| WarnNoName (zip_path : string)
| Added (package_name : json) (version : string).

(** ** Metadata Reader *)

(** The test of the [for name in z.namelist()] loop. *)
Definition is_package_json (name : string) : bool :=
  PyStr.endswith name "package.json" &&
  negb (PyStr.contains (PyStr.replace name "package.json" "") "/").

(** [z.namelist()] *)
Definition namelist (z : archive) : list string := map fst z.

(** The loop with its [break]: the first name that passes the test. *)
Definition find_package_json (z : archive) : option string :=
  List.find is_package_json (namelist z).

(** [z.read(name)] then decode and parse.  [ZipFile] keeps one entry per
    name, the last one of the central directory. *)
Fixpoint read_json (z : archive) (name : string) : read_result :=
  match z with
  | [] => ReadRaises
  | (n, r) :: z' =>
      if String.eqb n name && negb (existsb (String.eqb name) (namelist z'))
      then r
      else read_json z' name
  end.

(** [extract_package_info]: the value returned and what was printed. *)
Definition extract_package_info (zip_path : string) (zf : zipfile)
  : json * list event :=
  match zf with
  | NotAZip => (JNull, [ErrorReading zip_path])
  | Zip z =>
      match find_package_json z with
      | None => (JNull, [WarnNoPackageJson zip_path])
      | Some package_json_path =>
          match read_json z package_json_path with
          | ReadRaises => (JNull, [ErrorReading zip_path])
          | ReadOk package_data => (package_data, [])
          end
      end
  end.

(** ** Package Scanner *)

(** The dict built for one archive. *)
Abbreviation version_info := pydict.

(** [{"versions": {...}}] *)
Record package_record := { versions : gmap string version_info }.

(** The accumulating [packages] dict and what has been printed so far. *)
Record scan_state := {
  packages : gmap pykey package_record;
  printed : list event
}.

Definition say (st : scan_state) (es : list event) : scan_state :=
  {| packages := packages st; printed := printed st ++ es |}.

(** [os.path.join(plugin_dir, filename)] for two names from [os.listdir]. *)
Definition path_join (plugin_dir filename : string) : string :=
  plugin_dir ++ "/" ++ filename.

(** [packages[k]["versions"].get(v)] where both levels exist. *)
Definition lookup_version (pk : gmap pykey package_record) (k : pykey)
  (v : string) : option version_info :=
  p ← pk !! k; versions p !! v.

Section Scanner.

Context {db : Unicode}.

(** [repr] of a list or a dict, as the interpreter computes it. *)
Variable py_repr : json -> string.

(** [format(v, '')], what [str.format] does to a keyword value. *)
Definition py_format (v : json) : string :=
  match v with
  | JNull => "None"
  | JBool true => "True"
  | JBool false => "False"
  | JInt n => pretty n
  | JStr s => s
  | JArr _ | JObj _ => py_repr v
  end.

(** Lines 92-95: the download URL. *)
Definition download_url (package_info : pydict) (filename : string)
  : option string :=
  Format.format DOWNLOAD_URL_BASE
    [("plugin_name", py_format (Dict.get package_info "displayName"));
     ("filename", filename)].

(** Lines 98-113: the Version Record. *)
Definition build_version_info (package_info : pydict) (version : string)
  (download_url : string) : version_info :=
  let version_info :=
    [("name", Dict.get package_info "name");
     ("displayName", Dict.get package_info "displayName");
     ("version", JStr version);
     ("unity", Dict.get package_info "unity");
     ("description", Dict.get package_info "description");
     ("url", JStr download_url)] in
  let version_info :=
    match Dict.lookup package_info "vpmDependencies" with
    | Some deps => Dict.set version_info "vpmDependencies" deps
    | None => version_info
    end in
  let version_info :=
    match Dict.lookup package_info "author" with
    | Some author => Dict.set version_info "author" author
    | None => version_info
    end in
  version_info.

(** The body of the inner loop, lines 61-116. *)
Definition process_file (plugin_dir : string) (st : scan_state)
  (entry : string * zipfile) : result scan_state :=
  let '(filename, zf) := entry in
  if negb (PyStr.endswith filename ".zip") then Ok st else
  if negb (PyStr.startswith filename "vpm.") then Ok st else
  let zip_path := path_join plugin_dir filename in
  match extract_version_from_filename filename with
  | None => Ok (say st [WarnNoVersion filename])
  | Some version =>
      let '(package_info, out) := extract_package_info zip_path zf in
      let st := say st out in
      match package_info with
      | JNull => Ok st
      | JObj info =>
          let package_name := Dict.get info "name" in
          if negb (truthy package_name)
          then Ok (say st [WarnNoName zip_path])
          else
            match hash_key package_name with
            | None => Raise TypeError
            | Some key =>
                let pk :=
                  match packages st !! key with
                  | None => <[key := {| versions := ∅ |}]> (packages st)
                  | Some _ => packages st
                  end in
                match download_url info filename with
                | None => Raise ValueError
                | Some url =>
                    let version_info := build_version_info info version url in
                    match pk !! key with
                    | None => Raise KeyError
                    | Some p =>
                        Ok {| packages :=
                                <[key := {| versions :=
                                              <[version := version_info]>
                                                (versions p) |}]> pk;
                              printed :=
                                printed st ++ [Added package_name version] |}
                    end
                end
            end
      | JBool _ | JInt _ | JStr _ | JArr _ => Raise AttributeError
      end
  end.

(** The body of the outer loop, lines 50-116.  A name that [os.path.isdir]
    accepts also passes [os.path.exists]. *)
Definition scan_item (st : scan_state) (item : string * node)
  : result scan_state :=
  let '(name, n) := item in
  match n with
  | NotDir => Ok st
  | Dir listing =>
      if PyStr.startswith name "." then Ok st
      else
        let plugin_dir := name in
        for_each (process_file plugin_dir)
          (say st [ScanningDirectory plugin_dir]) listing
  end.

Definition initial_state : scan_state := {| packages := ∅; printed := [] |}.

(** [scan_packages], with the printed lines kept next to the mapping. *)
Definition scan_packages (t : tree) : result scan_state :=
  for_each scan_item initial_state t.

(** The Index Document. *)
Record index := {
  idx_name : string;
  idx_id : string;
  idx_url : string;
  idx_author : string;
  idx_packages : gmap pykey package_record
}.

(** [generate_index] *)
Definition generate_index (t : tree) : result index :=
  match scan_packages t with
  | Raise e => Raise e
  | Ok st =>
      Ok {| idx_name := ri_name REPO_INFO;
            idx_id := ri_id REPO_INFO;
            idx_url := ri_url REPO_INFO;
            idx_author := ri_author REPO_INFO;
            idx_packages := packages st |}
  end.

End Scanner.

(** ** The scan as a fold over the archives it meets *)

(** One archive met by the scan: the directory it lies in, its name and what
    opening it gives. *)
Record source := {
  src_dir : string;
  src_filename : string;
  src_zip : zipfile
}.

(** The archives of one top-level name, in listing order: none for a name
    that is not a directory or that starts with a dot. *)
Definition item_sources (item : string * node) : list source :=
  match item.2 with
  | NotDir => []
  | Dir listing =>
      if PyStr.startswith item.1 "." then []
      else map (fun e => {| src_dir := item.1;
                            src_filename := e.1;
                            src_zip := e.2 |}) listing
  end.

(** All archives in scan order. *)
Definition sources (t : tree) : list source := flat_map item_sources t.

(** The filename test of lines 61-66. *)
Definition qualifies (filename : string) : bool :=
  PyStr.endswith filename ".zip" && PyStr.startswith filename "vpm.".

(** What the Metadata Reader returns for a source. *)
Definition metadata (s : source) : json :=
  (extract_package_info (path_join (src_dir s) (src_filename s)) (src_zip s)).1.

(** [pk[k]["versions"][v] = r], creating [pk[k]] when it is new. *)
Definition add_version (pk : gmap pykey package_record) (k : pykey)
  (v : string) (r : version_info) : gmap pykey package_record :=
  <[k := {| versions :=
              <[v := r]> (from_option versions ∅ (pk !! k)) |}]> pk.

Section Contribution.

Context {db : Unicode}.
Variable py_repr : json -> string.

(** The entry an archive writes: package key, version and Version Record.
    [None] for an archive that is skipped or on which the scan stops. *)
Definition contribution (s : source)
  : option (pykey * string * version_info) :=
  if qualifies (src_filename s) then
    version ← extract_version_from_filename (src_filename s);
    match metadata s with
    | JObj info =>
        if truthy (Dict.get info "name") then
          key ← hash_key (Dict.get info "name");
          url ← download_url py_repr info (src_filename s);
          Some (key, version, build_version_info info version url)
        else None
    | _ => None
    end
  else None.

(** The mapping after the contributions of [l] are written in order. *)
Definition record_all (pk : gmap pykey package_record) (l : list source)
  : gmap pykey package_record :=
  fold_left
    (fun acc s =>
       match contribution s with
       | Some (k, v, r) => add_version acc k v r
       | None => acc
       end) l pk.

End Contribution.

(** ** Predicates of the specification *)

(** [name] ends with the metadata filename and has no path separator before
    that suffix. *)
Definition root_metadata_path (name : string) : Prop :=
  exists pre, name = pre ++ "package.json" /\ PyStr.has_char "/" pre = false.

(** [name] is the first entry of [names] that is a root metadata path. *)
Definition first_root_metadata (names : list string) (name : string) : Prop :=
  exists l1 l2 : list string,
    names = (l1 ++ name :: l2)%list /\ root_metadata_path name /\
    forall n, n ∈ l1 -> ~ root_metadata_path n.

(** The tree with the files deleted that the scan is said to ignore: every
    file of a directory whose name starts with a dot, and every file whose
    name lacks the prefix or the extension. *)
Definition prune (t : tree) : tree :=
  map (fun item =>
         (item.1,
          match item.2 with
          | NotDir => NotDir
          | Dir listing =>
              Dir (if PyStr.startswith item.1 "." then []
                   else List.filter (fun e => qualifies e.1) listing)
          end)) t.

(** Every package of the mapping has at least one version. *)
Definition all_nonempty (pk : gmap pykey package_record) : Prop :=
  forall k p, pk !! k = Some p -> versions p <> ∅.

(** ** What a scan prints and when it stops *)

Section Outcomes.

Context {db : Unicode}.



(** The name and version an archive is announced with in an [Added] line. *)
Definition announced (s : source) : option (json * string) :=
  if qualifies (src_filename s) then
    version ← extract_version_from_filename (src_filename s);
    match metadata s with
    | JObj info =>
        if truthy (Dict.get info "name") then
          _ ← hash_key (Dict.get info "name");
          Some (Dict.get info "name", version)
        else None
    | _ => None
    end
  else None.

End Outcomes.

(** The [Added] lines of a log. *)
Definition added_lines (es : list event) : list (json * string) :=
  omap (fun e => match e with
                 | Added package_name version => Some (package_name, version)
                 | _ => None
                 end) es.

(** The [Scanning directory] lines of a log. *)
Definition scanning_lines (es : list event) : list string :=
  omap (fun e => match e with
                 | ScanningDirectory plugin_dir => Some plugin_dir
                 | _ => None
                 end) es.

(** A top-level name the scan enters: a directory whose name does not start
    with a dot. *)
Definition visible (item : string * node) : bool :=
  match item.2 with
  | NotDir => false
  | Dir _ => negb (PyStr.startswith item.1 ".")
  end.

(** The directories the scan enters, in listing order. *)
Definition visible_dirs (t : tree) : list string :=
  map fst (List.filter visible t).


(** The entries of an archive that pass the Metadata Reader's test. *)
Definition root_entries (z : archive) : archive :=
  List.filter (fun e => is_package_json e.1) z.

Section Agreement.

Context {db : Unicode}.
Variable py_repr : json -> string.

(** No two archives of [l] write different records at one package key and
    version. *)
Definition agree (l : list source) : Prop :=
  forall s s' k v r r',
    s ∈ l -> s' ∈ l ->
    contribution py_repr s = Some (k, v, r) ->
    contribution py_repr s' = Some (k, v, r') ->
    r = r'.

End Agreement.

(** ** Sample inputs *)

Module Samples.

(** The part of the Unicode database the samples need: the Arabic-Indic
    digits U+0660 to U+0669, whose encodings are the bytes D9 A0 to D9 A9,
    are decimal digits. *)
Definition arabic_indic (ch : string) : bool :=
  match ch with
  | String a (String b EmptyString) =>
      (N_of_ascii a =? 217)%N
      && (160 <=? N_of_ascii b)%N && (N_of_ascii b <=? 169)%N
  | _ => false
  end.

#[local] Instance unicode_sample : Unicode :=
  {| unicode_decimal := arabic_indic |}.

(** [repr] is never called on the samples: no display name below is a list
    or a dict. *)
Definition no_repr (v : json) : string := "".

Definition meta_cool : pydict :=
  [("name", JStr "com.example.cool");
   ("displayName", JStr "Cool Plugin");
   ("version", JStr "9.9.9");
   ("unity", JStr "2019.4");
   ("description", JStr "x")].

Definition cool_123 : string := "vpm.myrepo.coolplugin-1.2.3.zip".

Definition zip_of (data : json) : zipfile := Zip [("package.json", ReadOk data)].

Definition tree_cool : tree :=
  [("coolplugin", Dir [(cool_123, zip_of (JObj meta_cool))])].

(** A metadata file that holds the JSON text [[]]. *)
Definition tree_array : tree :=
  [("plugin", Dir [("vpm.repo.plugin-1.0.0.zip", zip_of (JArr []))])].

(** A metadata file whose [name] is a list. *)
Definition tree_list_name : tree :=
  [("plugin", Dir [("vpm.repo.plugin-1.0.0.zip",
                    zip_of (JObj [("name", JArr [JStr "x"])]))])].

(** An archive with two root entries whose names end with [package.json];
    the one named [package.json] comes second. *)
Definition two_roots : archive :=
  [("xpackage.json", ReadOk (JObj [("name", JStr "com.example.other")]));
   ("package.json", ReadOk (JObj [("name", JStr "com.example.cool")]))].

(** A metadata file that holds the JSON text [null]. *)
Definition tree_null : tree :=
  [("plugin", Dir [("vpm.repo.plugin-1.0.0.zip", zip_of JNull)])].

(** A filename with a line feed after the extension. *)
Definition name_lf : string := "a-1.2.3.zip" ++ PyStr.LF.

(** The Arabic-Indic digits one, two and three, and a filename whose version
    is written with them. *)
Definition arabic_1 : string := String "217" (String "161" "").
Definition arabic_2 : string := String "217" (String "162" "").
Definition arabic_3 : string := String "217" (String "163" "").

Definition name_arabic : string :=
  "vpm.r.p-" ++ arabic_1 ++ "." ++ arabic_2 ++ "." ++ arabic_3 ++ ".zip".

(** The mapping and the index a scan of [t] returns. *)
Definition scanned (t : tree) : scan_state :=
  match scan_packages no_repr t with
  | Ok st => st
  | Raise _ => initial_state
  end.

Definition indexed (t : tree) : index :=
  match generate_index no_repr t with
  | Ok idx => idx
  | Raise _ =>
      {| idx_name := ""; idx_id := ""; idx_url := ""; idx_author := "";
         idx_packages := ∅ |}
  end.

Definition cool_key : pykey := KStr "com.example.cool".


(** The Version Record of [tree_cool]: the version is the filename's, not
    the [9.9.9] of the metadata, and the display name is pasted into the URL
    with its space. *)
Definition cool_record : version_info :=
  [("name", JStr "com.example.cool");
   ("displayName", JStr "Cool Plugin");
   ("version", JStr "1.2.3");
   ("unity", JStr "2019.4");
   ("description", JStr "x");
   ("url", JStr "https://raw.githubusercontent.com/cielo-h/vpmRepo/master/Cool Plugin/vpm.myrepo.coolplugin-1.2.3.zip")].

Definition cool_package : package_record :=
  {| versions := {["1.2.3" := cool_record]} |}.

(** Metadata with dependencies and an author. *)
Definition meta_full : pydict :=
  [("name", JStr "com.example.full");
   ("displayName", JStr "Full");
   ("unity", JStr "2022.3");
   ("description", JStr "all keys");
   ("vpmDependencies", JObj [("com.example.cool", JStr ">=1.0.0")]);
   ("author", JStr "cielo-h")].

Definition full_010 : string := "vpm.myrepo.full-0.1.0.zip".

Definition full_source : source :=
  {| src_dir := "full"; src_filename := full_010;
     src_zip := zip_of (JObj meta_full) |}.

Definition tree_full : tree :=
  [("full", Dir [(full_010, zip_of (JObj meta_full))])].

Definition full_record : version_info :=
  [("name", JStr "com.example.full");
   ("displayName", JStr "Full");
   ("version", JStr "0.1.0");
   ("unity", JStr "2022.3");
   ("description", JStr "all keys");
   ("url", JStr "https://raw.githubusercontent.com/cielo-h/vpmRepo/master/Full/vpm.myrepo.full-0.1.0.zip");
   ("vpmDependencies", JObj [("com.example.cool", JStr ">=1.0.0")]);
   ("author", JStr "cielo-h")].

Definition full_package : package_record :=
  {| versions := {["0.1.0" := full_record]} |}.



(** Two versions of one package, and the first version once more in a
    second directory with another description. *)
Definition meta_cool_again : pydict :=
  [("name", JStr "com.example.cool");
   ("displayName", JStr "Cool Plugin");
   ("unity", JStr "2019.4");
   ("description", JStr "second")].

Definition cool_100 : string := "vpm.myrepo.coolplugin-1.0.0.zip".
Definition cool_110 : string := "vpm.myrepo.coolplugin-1.1.0.zip".

Definition tree_versions : tree :=
  [("a", Dir [(cool_100, zip_of (JObj meta_cool));
              (cool_110, zip_of (JObj meta_cool))]);
   ("b", Dir [(cool_100, zip_of (JObj meta_cool_again))])].

Definition source_a100 : source :=
  {| src_dir := "a"; src_filename := cool_100;
     src_zip := zip_of (JObj meta_cool) |}.
Definition source_a110 : source :=
  {| src_dir := "a"; src_filename := cool_110;
     src_zip := zip_of (JObj meta_cool) |}.
Definition source_b100 : source :=
  {| src_dir := "b"; src_filename := cool_100;
     src_zip := zip_of (JObj meta_cool_again) |}.

(** The record the archive of directory [b] writes. *)
Definition again_record : version_info :=
  [("name", JStr "com.example.cool");
   ("displayName", JStr "Cool Plugin");
   ("version", JStr "1.0.0");
   ("unity", JStr "2019.4");
   ("description", JStr "second");
   ("url", JStr "https://raw.githubusercontent.com/cielo-h/vpmRepo/master/Cool Plugin/vpm.myrepo.coolplugin-1.0.0.zip")].


(** Two directories, and the same two directories listed the other way
    round with the files of the first swapped. *)
Definition tree_forth : tree :=
  [("a", Dir [(cool_100, zip_of (JObj meta_cool));
              (cool_110, zip_of (JObj meta_cool))]);
   ("full", Dir [(full_010, zip_of (JObj meta_full))])].

Definition tree_back : tree :=
  [("full", Dir [(full_010, zip_of (JObj meta_full))]);
   ("a", Dir [(cool_110, zip_of (JObj meta_cool));
              (cool_100, zip_of (JObj meta_cool))])].

(** A file that is no archive, under a name that passes the filename
    test. *)
Definition broken_100 : string := "vpm.myrepo.broken-1.0.0.zip".

(** A tree in which no file passes the filename test: a file at the top
    level, a hidden directory, an empty directory and one with a text
    file. *)
Definition tree_idle : tree :=
  [("vpm.myrepo.top-1.0.0.zip", NotDir);
   (".git", Dir [(cool_123, zip_of (JObj meta_cool))]);
   ("empty", Dir []);
   ("docs", Dir [("README.md", NotAZip)])].

End Samples.

(** * Properties *)

(** ** Facts about the string operations *)

Module PyStrFacts.
Import PyStr.

Lemma app_empty_r (s : string) : s ++ "" = s.
Proof. induction s as [|c s IH]; simpl; [done | by rewrite IH]. Qed.

Lemma app_assoc (a b c : string) : (a ++ b) ++ c = a ++ b ++ c.
Proof. induction a as [|x a IH]; simpl; [done | by rewrite IH]. Qed.

Lemma app_length (a b : string) :
  String.length (a ++ b) = (String.length a + String.length b)%nat.
Proof. induction a as [|x a IH]; simpl; [done | by rewrite IH]. Qed.

Lemma startswith_app (p r : string) : startswith (p ++ r) p = true.
Proof.
  induction p as [|c p IH]; simpl; [done |].
  by rewrite Ascii.eqb_refl.
Qed.

Lemma startswith_inv (s p : string) :
  startswith s p = true -> exists r, s = p ++ r.
Proof.
  revert s. induction p as [|c p IH]; intros s H; simpl in H.
  - by exists s.
  - destruct s as [|b s]; [done |].
    destruct (Ascii.eqb c b) eqn:E; [| done].
    apply Ascii.eqb_eq in E as ->.
    destruct (IH s H) as [r ->]. by exists r.
Qed.

Lemma startswith_spec (s p : string) :
  startswith s p = true <-> exists r, s = p ++ r.
Proof.
  split; [apply startswith_inv |].
  intros [r ->]. apply startswith_app.
Qed.

Lemma drop_app (p r : string) : drop (String.length p) (p ++ r) = r.
Proof. induction p as [|c p IH]; simpl; [by destruct r | done]. Qed.

Lemma endswith_spec (s p : string) :
  endswith s p = true <-> exists pre, s = pre ++ p.
Proof.
  induction s as [|c s IH]; cbn [endswith].
  - rewrite orb_false_r, String.eqb_eq. split.
    + intros <-. by exists "".
    + intros [pre H]. destruct pre; [done | discriminate].
  - rewrite orb_true_iff, String.eqb_eq, IH. split.
    + intros [<- | [pre ->]]; [by exists "" | by exists (String c pre)].
    + intros [[|x pre] H]; simpl in H; [by left |].
      injection H as -> ->. right. by exists pre.
Qed.

Lemma has_char_app (c : ascii) (a b : string) :
  has_char c (a ++ b) = has_char c a || has_char c b.
Proof.
  induction a as [|x a IH]; simpl; [done |].
  by rewrite IH, orb_assoc.
Qed.

(** A string whose last character is a line feed does not end with the
    archive extension. *)
Lemma endswith_zip_line_feed (s : string) : endswith (s ++ LF) ".zip" = false.
Proof.
  induction s as [|c s IH]; [done |].
  change (String c s ++ LF) with (String c (s ++ LF)).
  cbn [endswith]. rewrite IH, orb_false_r.
  apply String.eqb_neq.
  destruct s as [|? [|? [|? [|? s]]]]; discriminate.
Qed.

(** [c in s] for a one-character string [c]. *)
Lemma contains_char (s : string) (c : ascii) :
  contains s (String c "") = has_char c s.
Proof.
  induction s as [|x s IH]; simpl; [done |].
  rewrite IH, (Ascii.eqb_sym c x). by destruct (Ascii.eqb x c).
Qed.

(** While an occurrence is being passed over nothing is produced. *)
Lemma replace_from_skip (old new a b : string) :
  replace_from old new (String.length a) (a ++ b) = replace_from old new 0 b.
Proof.
  induction a as [|x a IH]; simpl; [by destruct b | done].
Qed.

(** The equations of [str.replace] for a non-empty [old]. *)
Lemma replace_empty (o : ascii) (old new : string) :
  replace "" (String o old) new = "".
Proof. done. Qed.

Lemma replace_match (o : ascii) (old new r : string) :
  replace (String o old ++ r) (String o old) new
  = new ++ replace r (String o old) new.
Proof.
  unfold replace. cbn [append replace_from].
  change (String o (old ++ r)) with (String o old ++ r).
  rewrite startswith_app.
  assert (String.length (String o old) - 1 = String.length old)%nat as ->
    by (simpl; lia).
  by rewrite replace_from_skip.
Qed.

Lemma replace_no_match (c o : ascii) (s old new : string) :
  startswith (String c s) (String o old) = false ->
  replace (String c s) (String o old) new
  = String c (replace s (String o old) new).
Proof. unfold replace. cbn [replace_from]. by intros ->. Qed.

(** Replacing never adds or removes a character that occurs in neither
    [old] nor [new]. *)
Lemma has_char_replace (c o : ascii) (old new s : string) :
  has_char c (String o old) = false ->
  has_char c new = false ->
  has_char c (replace s (String o old) new) = has_char c s.
Proof.
  intros Hold Hnew.
  remember (String.length s) as n eqn:Hn.
  revert s Hn. induction n as [n IH] using lt_wf_ind. intros s Hn.
  destruct s as [|x s]; [done |].
  destruct (startswith (String x s) (String o old)) eqn:E.
  - apply startswith_inv in E as [r E]. rewrite E.
    rewrite replace_match, !has_char_app, Hnew, Hold. simpl.
    apply (IH (String.length r)); [| done].
    subst n. rewrite E, app_length. simpl. lia.
  - rewrite replace_no_match by done. simpl. f_equal.
    apply (IH (String.length s)); [| done].
    subst n. simpl. lia.
Qed.

End PyStrFacts.

(** ** Facts about the pattern matcher *)

Module ReFacts.
Import PyStr PyStrFacts Re.

(** The bytes of a character outside ASCII are all above the ASCII range. *)
Lemma continuation_inv (n : nat) (s t : string) :
  continuation n s = Some t ->
  String.length t = n /\ (exists r, s = t ++ r) /\
  continuation n t = Some t /\
  forall a, (N_of_ascii a <? 128)%N = true -> has_char a t = false.
Proof.
  revert s t. induction n as [|n IH]; intros s t; simpl.
  - intros [= <-]. split; [done |]. split; [by exists s | done].
  - destruct s as [|c s]; [done |].
    destruct (is_continuation c) eqn:Ec; [| done].
    destruct (continuation n s) as [t'|] eqn:E; simpl; [| done].
    intros [= <-]. destruct (IH _ _ E) as (Hl & [r ->] & Ht & Hc).
    split; [simpl; by rewrite Hl |].
    split; [by exists r |].
    split; [simpl; by rewrite Ec, Ht |].
    intros a Ha. simpl. rewrite (Hc a Ha), orb_false_r.
    apply Ascii.eqb_neq. intros ->.
    apply andb_true_iff in Ec as [Ec _].
    apply N.leb_le in Ec. apply N.ltb_lt in Ha. lia.
Qed.

Lemma continuation_app (n : nat) (t r : string) :
  continuation n t = Some t -> continuation n (t ++ r) = Some t.
Proof.
  revert t. induction n as [|n IH]; intros t; simpl; [done |].
  destruct t as [|c t]; [done |]. simpl.
  destruct (is_continuation c); [| done].
  destruct (continuation n t) as [t'|] eqn:E; simpl; [| done].
  intros [= ->]. by rewrite (IH _ E).
Qed.

Lemma followers_lead (c : ascii) (n : nat) :
  followers c = Some n -> (192 <=? N_of_ascii c)%N = true.
Proof.
  unfold followers.
  repeat match goal with
         | |- context [(?a <=? ?b)%N] =>
             let E := fresh "E" in destruct (N.leb_spec a b) as [E|E]
         end; simpl; try done; lia.
Qed.

Lemma lead_not_ascii_digit (c : ascii) (n : nat) :
  followers c = Some n -> is_ascii_digit c = false.
Proof.
  intros Hc%followers_lead%N.leb_le. unfold is_ascii_digit.
  apply andb_false_iff. right. apply N.leb_gt. lia.
Qed.

Lemma wide_char_inv (s ch : string) :
  wide_char s = Some ch ->
  (exists r, s = ch ++ r) /\ wide_char ch = Some ch /\
  (exists c t, ch = String c t /\ is_ascii_digit c = false) /\
  forall a, (N_of_ascii a <? 128)%N = true -> has_char a ch = false.
Proof.
  destruct s as [|c s]; simpl; [done |].
  destruct (followers c) as [n|] eqn:En; simpl; [| done].
  destruct (continuation n s) as [t|] eqn:Et; simpl; [| done].
  intros [= <-]. destruct (continuation_inv _ _ _ Et) as (_ & [r ->] & Ht & Ha).
  split; [by exists r |].
  split; [cbn [wide_char]; by rewrite En; simpl; rewrite Ht |].
  split; [exists c, t; split; [done | by eapply lead_not_ascii_digit] |].
  intros a Hlt. simpl. rewrite (Ha a Hlt), orb_false_r.
  apply Ascii.eqb_neq. intros ->.
  apply followers_lead, N.leb_le in En. apply N.ltb_lt in Hlt. lia.
Qed.

Lemma wide_char_app (ch r : string) :
  wide_char ch = Some ch -> wide_char (ch ++ r) = Some ch.
Proof.
  destruct ch as [|c t]; simpl; [done |].
  destruct (followers c) as [n|]; simpl; [| done].
  destruct (continuation n t) as [t'|] eqn:Et; simpl; [| done].
  intros [= ->]. by rewrite (continuation_app _ _ _ Et).
Qed.

Section Digits.
Context {db : Unicode}.

Lemma wide_digit_inv (s ch : string) :
  wide_digit s = Some ch ->
  (exists r, s = ch ++ r) /\ wide_char ch = Some ch /\
  unicode_decimal ch = true.
Proof.
  unfold wide_digit.
  destruct (wide_char s) as [ch'|] eqn:E; simpl; [| done].
  destruct (unicode_decimal ch') eqn:Ed; [| done].
  intros [= <-]. by destruct (wide_char_inv _ _ E) as (Hr & Hw & _).
Qed.

Lemma wide_digit_app (ch r : string) :
  wide_char ch = Some ch -> unicode_decimal ch = true ->
  wide_digit (ch ++ r) = Some ch.
Proof.
  intros Hw Hd. unfold wide_digit. rewrite (wide_char_app _ _ Hw). simpl.
  by rewrite Hd.
Qed.

(** A byte of ASCII that is no digit starts no character [\d] accepts. *)
Lemma wide_digit_ascii (c : ascii) (s : string) :
  (N_of_ascii c <? 128)%N = true -> wide_digit (String c s) = None.
Proof.
  intros Hc. unfold wide_digit. simpl.
  destruct (followers c) as [n|] eqn:E; [| done].
  apply followers_lead, N.leb_le in E. apply N.ltb_lt in Hc. lia.
Qed.

Lemma span_from_skip (t s : string) :
  span_from (String.length t) (t ++ s) =
  let (d, r) := span_from 0 s in (t ++ d, r).
Proof.
  induction t as [|c t IH]; simpl.
  - by destruct (span_from 0 s).
  - rewrite IH. by destruct (span_from 0 s).
Qed.

Lemma span_digits_ascii (c : ascii) (s : string) :
  is_ascii_digit c = true ->
  span_digits (String c s) = let (d, r) := span_digits s in (String c d, r).
Proof. intros Hc. unfold span_digits. simpl. by rewrite Hc. Qed.

Lemma span_digits_wide (ch s : string) :
  wide_char ch = Some ch -> unicode_decimal ch = true ->
  span_digits (ch ++ s) = let (d, r) := span_digits s in (ch ++ d, r).
Proof.
  intros Hw Hd. pose proof (wide_digit_app ch s Hw Hd) as E.
  destruct (wide_char_inv _ _ Hw) as (_ & _ & (c & t & -> & Hc) & _).
  unfold span_digits. cbn [span_from String.append] in *.
  rewrite Hc, E. cbn [String.length].
  replace (S (String.length t) - 1)%nat with (String.length t) by lia.
  rewrite span_from_skip.
  by destruct (span_from 0 s).
Qed.

Lemma span_digits_stop (c : ascii) (s : string) :
  is_ascii_digit c = false -> wide_digit (String c s) = None ->
  span_digits (String c s) = ("", String c s).
Proof. intros Hc Hw. unfold span_digits. simpl. by rewrite Hc, Hw. Qed.

Lemma span_digits_inv (s d r : string) :
  span_digits s = (d, r) -> s = d ++ r /\ digits d.
Proof.
  remember (String.length s) as n eqn:Hn. revert s d r Hn.
  induction (lt_wf n) as [n _ IH]. intros s d r ->.
  destruct s as [|c s].
  - intros [= <- <-]. split; [done | constructor].
  - destruct (is_ascii_digit c) eqn:Ec.
    + rewrite span_digits_ascii by done.
      destruct (span_digits s) as [d' r'] eqn:E. intros [= <- <-].
      destruct (IH (String.length s) (Nat.lt_succ_diag_r _) s d' r' eq_refl E)
        as [-> Hd].
      split; [done |].
      apply (digits_cons (String c "") d'); [by constructor | done].
    + destruct (wide_digit (String c s)) as [ch|] eqn:Ew.
      * destruct (wide_digit_inv _ _ Ew) as ([s' Es] & Hw & Hdec).
        rewrite Es, span_digits_wide by done.
        destruct (span_digits s') as [d' r'] eqn:E. intros [= <- <-].
        assert (String.length s' < String.length (String c s))%nat as Hlt.
        { rewrite Es, app_length. destruct ch; [done | simpl; lia]. }
        destruct (IH _ Hlt s' d' r' eq_refl E) as [-> Hd].
        split; [by rewrite app_assoc |].
        apply digits_cons; [by apply digit_wide | done].
      * rewrite span_digits_stop by done. intros [= <- <-].
        split; [done | constructor].
Qed.

Lemma span_digits_app (d r : string) (c : ascii) :
  digits d -> (N_of_ascii c <? 128)%N = true -> is_ascii_digit c = false ->
  span_digits (d ++ String c r) = (d, String c r).
Proof.
  intros Hd Ha Hc. induction Hd as [|ch s Hch _ IH].
  - simpl. apply span_digits_stop; [done | by apply wide_digit_ascii].
  - rewrite app_assoc. destruct Hch as [a Ha' | ch Hw Hdec].
    + simpl. rewrite span_digits_ascii by done. by rewrite IH.
    + rewrite span_digits_wide by done. by rewrite IH.
Qed.

Lemma digits1_inv (s d r : string) :
  digits1 s = Some (d, r) -> s = d ++ r /\ digit_seq d.
Proof.
  unfold digits1. destruct (span_digits s) as [d' r'] eqn:E.
  apply span_digits_inv in E as [-> Hd].
  destruct d' as [|x d']; [done |].
  intros [= <- <-]. by repeat split.
Qed.

Lemma digits1_app (d r : string) (c : ascii) :
  digit_seq d -> (N_of_ascii c <? 128)%N = true -> is_ascii_digit c = false ->
  digits1 (d ++ String c r) = Some (d, String c r).
Proof.
  intros [Hne Hd] Ha Hc. unfold digits1.
  rewrite span_digits_app by done. by destruct d.
Qed.

Lemma lit_inv (p s r : string) : lit p s = Some r -> s = p ++ r.
Proof.
  unfold lit. destruct (startswith s p) eqn:E; [| done].
  apply startswith_inv in E as [r' ->]. rewrite drop_app. by intros [= ->].
Qed.

Lemma lit_app (p r : string) : lit p (p ++ r) = Some r.
Proof. unfold lit. by rewrite startswith_app, drop_app. Qed.

Lemma lit_char (c : ascii) (r : string) :
  lit (String c "") (String c r) = Some r.
Proof. unfold lit. simpl. by rewrite Ascii.eqb_refl. Qed.

Lemma at_end_spec (s : string) : at_end s = true <-> s = "" \/ s = LF.
Proof. unfold at_end. by rewrite orb_true_iff, !String.eqb_eq. Qed.

(** A character of ASCII that is no digit does not occur in a digit
    sequence. *)
Lemma digits_lack (c : ascii) (d : string) :
  (N_of_ascii c <? 128)%N = true -> is_ascii_digit c = false ->
  digits d -> has_char c d = false.
Proof.
  intros Ha Hc Hd. induction Hd as [|ch s Hch _ IH]; [done |].
  rewrite has_char_app, IH, orb_false_r.
  destruct Hch as [a Ha' | ch Hw _].
  - simpl. rewrite orb_false_r. apply Ascii.eqb_neq. by intros ->; congruence.
  - by apply (wide_char_inv _ _ Hw).
Qed.

(** What is left of a match after its leading hyphen holds no hyphen. *)
Lemma version_lacks_hyphen (v tail : string) :
  dotted_version v -> tail = "" \/ tail = LF ->
  has_char "-" (v ++ ".zip" ++ tail) = false.
Proof.
  intros (x & y & z & [_ Hx] & [_ Hy] & [_ Hz] & ->) Ht.
  rewrite !has_char_app.
  rewrite (digits_lack "-" x), (digits_lack "-" y), (digits_lack "-" z)
    by done.
  by destruct Ht as [-> | ->].
Qed.

Lemma match_version_at_inv (s v : string) :
  match_version_at s = Some v ->
  dotted_version v /\
  exists tail, (tail = "" \/ tail = LF) /\ s = "-" ++ v ++ ".zip" ++ tail.
Proof.
  unfold match_version_at. intros H.
  destruct (lit "-" s) as [r0|] eqn:E0; simpl in H; [| done].
  destruct (digits1 r0) as [[x r1]|] eqn:E1; simpl in H; [| done].
  destruct (lit "." r1) as [r2|] eqn:E2; simpl in H; [| done].
  destruct (digits1 r2) as [[y r3]|] eqn:E3; simpl in H; [| done].
  destruct (lit "." r3) as [r4|] eqn:E4; simpl in H; [| done].
  destruct (digits1 r4) as [[z r5]|] eqn:E5; simpl in H; [| done].
  destruct (lit ".zip" r5) as [r6|] eqn:E6; simpl in H; [| done].
  destruct (at_end r6) eqn:E7; [| done].
  injection H as <-.
  apply lit_inv in E0 as ->. apply digits1_inv in E1 as [-> Hx].
  apply lit_inv in E2 as ->. apply digits1_inv in E3 as [-> Hy].
  apply lit_inv in E4 as ->. apply digits1_inv in E5 as [-> Hz].
  apply lit_inv in E6 as ->. apply at_end_spec in E7.
  split; [by exists x, y, z |].
  exists r6. split; [done |].
  by repeat first [rewrite app_assoc | progress simpl].
Qed.

Lemma match_version_at_app (v tail : string) :
  dotted_version v -> tail = "" \/ tail = LF ->
  match_version_at ("-" ++ v ++ ".zip" ++ tail) = Some v.
Proof.
  intros (x & y & z & Hx & Hy & Hz & ->) Ht.
  unfold match_version_at.
  repeat first [rewrite app_assoc | progress simpl].
  rewrite (digits1_app x) by done. simpl.
  rewrite (digits1_app y) by done. simpl.
  rewrite (digits1_app z) by done. simpl.
  by destruct Ht as [-> | ->].
Qed.

Lemma search_version_inv (s v : string) :
  search_version s = Some v ->
  exists pre r, s = pre ++ r /\ match_version_at r = Some v.
Proof.
  induction s as [|c s IH]; cbn [search_version].
  - destruct (match_version_at "") eqn:E; [| done].
    intros [= ->]. by exists "", "".
  - destruct (match_version_at (String c s)) eqn:E.
    + intros [= ->]. by exists "", (String c s).
    + intros (pre & r & -> & H)%IH. by exists (String c pre), r.
Qed.

Lemma search_version_here (s v : string) :
  match_version_at s = Some v -> search_version s = Some v.
Proof. destruct s; cbn [search_version]; by intros ->. Qed.

(** The match is unique: the pattern cannot match at a position before the
    hyphen of a later match, because it has only one hyphen. *)
Lemma search_version_app (pre v tail : string) :
  dotted_version v -> tail = "" \/ tail = LF ->
  search_version (pre ++ "-" ++ v ++ ".zip" ++ tail) = Some v.
Proof.
  intros Hv Ht. induction pre as [|c pre IH].
  - apply search_version_here. by apply match_version_at_app.
  - change (String c pre ++ ?r) with (String c (pre ++ r)).
    cbn [search_version]. rewrite IH.
    destruct (match_version_at _) as [v'|] eqn:E; [| done].
    apply match_version_at_inv in E as (Hv' & tail' & Ht' & E).
    injection E as -> E.
    assert (has_char "-" (pre ++ "-" ++ v ++ ".zip" ++ tail) = false) as Hno.
    { etrans; [| apply (version_lacks_hyphen v' tail' Hv' Ht')].
      f_equal. exact E. }
    rewrite has_char_app in Hno. simpl in Hno.
    by rewrite orb_true_r in Hno.
Qed.

End Digits.

End ReFacts.

(** ** The definitions at small inputs *)

Section Examples.
Context {db : Unicode}.
Import PyStr.

Example replace_all_occurrences : replace "abcabc" "bc" "-" = "a-a-".
Proof. reflexivity. Qed.

Example replace_does_not_overlap : replace "aaa" "aa" "b" = "ba".
Proof. reflexivity. Qed.

Example replace_metadata_name : replace "sub/package.json" "package.json" "" = "sub/".
Proof. reflexivity. Qed.

Example root_entry_passes : is_package_json "package.json" = true.
Proof. reflexivity. Qed.

Example nested_entry_fails : is_package_json "sub/package.json" = false.
Proof. reflexivity. Qed.

Example version_found :
  extract_version_from_filename "vpm.myrepo.coolplugin-1.2.3.zip" = Some "1.2.3".
Proof. reflexivity. Qed.

Example version_needs_three_parts :
  extract_version_from_filename "vpm.myrepo.coolplugin-1.2.zip" = None.
Proof. reflexivity. Qed.

Example version_takes_last_hyphen :
  extract_version_from_filename "vpm.my-repo.cool-10.0.17.zip" = Some "10.0.17".
Proof. reflexivity. Qed.

Example format_fields :
  Format.format "{a}-{b}{a}" [("a", "x"); ("b", "{a}")] = Some "x-{a}x".
Proof. reflexivity. Qed.

Example read_takes_last_entry :
  read_json [("package.json", ReadOk JNull); ("package.json", ReadOk (JInt 1))]
    "package.json" = ReadOk (JInt 1).
Proof. reflexivity. Qed.

End Examples.

(** ** Version Extractor *)

Section VersionExtractor.
Context {db : Unicode}.
Import PyStr PyStrFacts Re ReFacts.

Lemma extract_version_is_search (filename : string) :
  extract_version_from_filename filename = search_version filename.
Proof. unfold extract_version_from_filename. by destruct (search_version _). Qed.

Lemma extract_version_suffix (filename v tail : string) :
  tail = "" \/ tail = LF -> version_suffix filename v tail ->
  extract_version_from_filename filename = Some v.
Proof.
  intros Ht [Hv [pre ->]]. rewrite extract_version_is_search.
  by apply search_version_app.
Qed.

Lemma extract_version_inv (filename v : string) :
  extract_version_from_filename filename = Some v ->
  version_suffix filename v "" \/ version_suffix filename v LF.
Proof.
  rewrite extract_version_is_search.
  intros (pre & r & -> & H)%search_version_inv.
  apply match_version_at_inv in H as (Hv & tail & [-> | ->] & ->);
    [left | right]; (split; [done | by exists pre]).
Qed.

(** C2, as amended.  The Version Extractor returns [X.Y.Z] exactly for the
    filenames that end with [-X.Y.Z.zip], or with [-X.Y.Z.zip] and one line
    feed after it ([$] also matches before a final line feed); for every
    other filename it returns [None].  [X], [Y] and [Z] are non-empty
    sequences of the characters [\d] accepts: the ASCII digits and every
    other Unicode decimal digit.  It is a total function, so it never
    raises.  On the names the scanner passes to it, which end with [.zip],
    it returns [X.Y.Z] exactly when the name ends with [-X.Y.Z.zip]. *)
Theorem extract_version_from_filename_spec (filename : string) :
  (forall v,
     extract_version_from_filename filename = Some v <->
     version_suffix filename v "" \/ version_suffix filename v LF) /\
  (extract_version_from_filename filename = None <->
   forall v, ~ version_suffix filename v "" /\ ~ version_suffix filename v LF) /\
  (endswith filename ".zip" = true ->
   forall v,
     extract_version_from_filename filename = Some v <->
     version_suffix filename v "").
Proof.
  enough ((forall v,
     extract_version_from_filename filename = Some v <->
     version_suffix filename v "" \/ version_suffix filename v LF) /\
    (extract_version_from_filename filename = None <->
     forall v, ~ version_suffix filename v "" /\
               ~ version_suffix filename v LF)) as [Hs Hn].
  { split; [done |]. split; [done |]. intros Hzip v. rewrite Hs.
    split; [| by left]. intros [H | (_ & pre & ->)]; [done |].
    rewrite <- !app_assoc in Hzip.
    by rewrite endswith_zip_line_feed in Hzip. }
  assert (forall v,
    extract_version_from_filename filename = Some v <->
    version_suffix filename v "" \/ version_suffix filename v LF) as Hsome.
  { intros v. split; [apply extract_version_inv |].
    intros [H | H];
      [apply (extract_version_suffix _ _ "") | apply (extract_version_suffix _ _ LF)];
      auto. }
  split; [done |]. split.
  - intros Hnone v. split; intros H.
    + assert (extract_version_from_filename filename = Some v) as E
        by (apply Hsome; by left).
      congruence.
    + assert (extract_version_from_filename filename = Some v) as E
        by (apply Hsome; by right).
      congruence.
  - intros Hno. destruct (extract_version_from_filename filename) as [v|];
      [| done].
    destruct (Hno v) as [H1 H2].
    by destruct (proj1 (Hsome v) eq_refl).
Qed.

(** A name of ASCII characters is handled the same way whatever the
    Unicode database holds. *)
Lemma line_feed_name_yields_version :
  ~ ends_with_version Samples.name_lf /\
  extract_version_from_filename Samples.name_lf = Some "1.2.3".
Proof.
  split; [| reflexivity].
  intros (v & _ & pre & E).
  assert (endswith Samples.name_lf ".zip" = true) as Hzip.
  { apply endswith_spec. exists (pre ++ "-" ++ v).
    rewrite E. by rewrite !app_assoc, app_empty_r. }
  discriminate Hzip.
Qed.

End VersionExtractor.

Section VersionExtractorSamples.
#[local] Existing Instance Samples.unicode_sample.
Import PyStr PyStrFacts.

(** The digits of a version need not be ASCII digits: a name whose version
    is written in Arabic-Indic digits yields that version. *)
Example version_in_arabic_indic_digits :
  extract_version_from_filename Samples.name_arabic
  = Some (Samples.arabic_1 ++ "." ++ Samples.arabic_2 ++ "."
          ++ Samples.arabic_3).
Proof. reflexivity. Qed.

Example arabic_indic_version_is_dotted :
  dotted_version
    (Samples.arabic_1 ++ "." ++ Samples.arabic_2 ++ "." ++ Samples.arabic_3).
Proof.
  exists Samples.arabic_1, Samples.arabic_2, Samples.arabic_3.
  assert (forall ch, Re.wide_char ch = Some ch ->
                     unicode_decimal ch = true -> digit_seq ch) as Hd.
  { intros ch Hw Hdec. split; [by destruct ch |].
    rewrite <- (app_empty_r ch).
    apply digits_cons; [by apply digit_wide | constructor]. }
  by repeat split; try apply Hd.
Qed.

(** C2, as stated, fails: a filename with a line feed after the extension
    does not end with [-X.Y.Z.zip], and the extractor still returns the
    version. *)
Lemma extract_version_trailing_line_feed :
  ~ ends_with_version Samples.name_lf /\
  extract_version_from_filename Samples.name_lf = Some "1.2.3".
Proof. exact line_feed_name_yields_version. Qed.

End VersionExtractorSamples.

(** ** Metadata Reader *)

Section MetadataReader.
Import PyStr PyStrFacts.

(** The test of the loop is the root-level criterion: [replace] removes no
    separator, so a separator in what it leaves is a separator in the name. *)
Lemma is_package_json_spec (name : string) :
  is_package_json name = true <-> root_metadata_path name.
Proof.
  unfold is_package_json, root_metadata_path.
  rewrite andb_true_iff, negb_true_iff, endswith_spec, contains_char.
  rewrite has_char_replace by done.
  split.
  - intros [[pre ->] H]. exists pre. split; [done |].
    rewrite has_char_app in H. by apply orb_false_iff in H as [? _].
  - intros (pre & -> & H). split; [by exists pre |].
    by rewrite has_char_app, H.
Qed.

Lemma find_first {A : Type} (f : A -> bool) (l : list A) (x : A) :
  List.find f l = Some x <->
  exists l1 l2, l = (l1 ++ x :: l2)%list /\ f x = true /\
                forall y, y ∈ l1 -> f y = false.
Proof.
  induction l as [|a l IH]; simpl.
  - split; [done |]. intros (l1 & l2 & E & _). by destruct l1.
  - destruct (f a) eqn:Ea.
    + split.
      * intros [= ->]. exists [], l. repeat split; [done |].
        intros y Hy. by apply elem_of_nil in Hy.
      * intros ([|b l1] & l2 & E & Hx & Hl1); simpl in E.
        -- by injection E as ->.
        -- injection E as -> _. rewrite Hl1 in Ea; [done | by left].
    + rewrite IH. split.
      * intros (l1 & l2 & -> & Hx & Hl1). exists (a :: l1), l2.
        repeat split; [done |].
        intros y [-> | Hy]%elem_of_cons; auto.
      * intros ([|b l1] & l2 & E & Hx & Hl1); simpl in E.
        -- injection E as -> _. congruence.
        -- injection E as -> ->. exists l1, l2. repeat split; [done |].
           intros y Hy. apply Hl1. by right.
Qed.

Lemma find_none_iff {A : Type} (f : A -> bool) (l : list A) :
  List.find f l = None <-> forall y, y ∈ l -> f y = false.
Proof.
  induction l as [|a l IH]; simpl.
  - split; [| done]. intros _ y Hy. by apply elem_of_nil in Hy.
  - destruct (f a) eqn:Ea.
    + split; [done |]. intros H. rewrite H in Ea; [done | by left].
    + rewrite IH. split.
      * intros H y [-> | Hy]%elem_of_cons; auto.
      * intros H y Hy. apply H. by right.
Qed.

Lemma find_package_json_first (z : archive) (name : string) :
  find_package_json z = Some name <-> first_root_metadata (namelist z) name.
Proof.
  unfold find_package_json, first_root_metadata. rewrite find_first.
  split; intros (l1 & l2 & E & Hn & Hl1); exists l1, l2;
    (split; [done |]); (split; [by apply is_package_json_spec |]);
    intros n Hin.
  - rewrite <- is_package_json_spec, (Hl1 n Hin). done.
  - apply not_true_is_false. rewrite is_package_json_spec. by apply Hl1.
Qed.

Lemma find_package_json_none (z : archive) :
  find_package_json z = None <->
  forall n, n ∈ namelist z -> ~ root_metadata_path n.
Proof.
  unfold find_package_json. rewrite find_none_iff.
  split; intros H n Hin.
  - rewrite <- is_package_json_spec, (H n Hin). done.
  - apply not_true_is_false. rewrite is_package_json_spec. by apply H.
Qed.

(** [z.read(name)] gives the content of the last entry stored under
    [name]. *)
Lemma read_json_last (z : archive) (name : string) :
  name ∈ namelist z ->
  exists z1 r z2,
    z = (z1 ++ (name, r) :: z2)%list /\ (name ∉ namelist z2) /\
    read_json z name = r.
Proof.
  induction z as [|[n r0] z IH]; simpl.
  - by intros ?%elem_of_nil.
  - intros Hin.
    destruct (existsb (String.eqb name) (namelist z)) eqn:Ex.
    + apply existsb_exists in Ex as (n' & Hn' & ->%String.eqb_eq).
      apply list_elem_of_In in Hn'.
      destruct (IH Hn') as (z1 & r & z2 & -> & Hz2 & Hr).
      exists ((n, r0) :: z1), r, z2.
      by rewrite andb_false_r.
    + assert (name ∉ namelist z) as Hout.
      { intros Hn'%list_elem_of_In.
        assert (existsb (String.eqb name) (namelist z) = true) as Ex'
          by (apply existsb_exists; exists name; by rewrite String.eqb_refl).
        congruence. }
      apply elem_of_cons in Hin as [-> | Hin]; [| done].
      exists [], r0, z. by rewrite String.eqb_refl.
Qed.

(** C4, as amended.  The entry the Metadata Reader takes as the metadata
    file is the first one, in archive order, whose stored path ends with
    [package.json] and has no path separator before that suffix.  The
    reader returns what is stored under that entry's name (the last entry
    of that name, as [ZipFile.read] has it): its parsed content, or [None]
    after an error line when it cannot be read or parsed.  Exactly when no
    entry is such a path, in particular when every metadata-named entry
    lies in a subdirectory, the reader prints the warning and returns
    [None]. *)
Theorem metadata_reader_root_only (z : archive) :
  (forall name, is_package_json name = true <-> root_metadata_path name) /\
  (forall name,
     find_package_json z = Some name <->
     first_root_metadata (namelist z) name) /\
  (forall zip_path name,
     first_root_metadata (namelist z) name ->
     exists z1 r z2,
       z = (z1 ++ (name, r) :: z2)%list /\ (name ∉ namelist z2) /\
       extract_package_info zip_path (Zip z)
       = match r with
         | ReadOk package_data => (package_data, [])
         | ReadRaises => (JNull, [ErrorReading zip_path])
         end) /\
  (forall zip_path,
     (forall n, n ∈ namelist z -> ~ root_metadata_path n) <->
     extract_package_info zip_path (Zip z)
     = (JNull, [WarnNoPackageJson zip_path])).
Proof.
  split; [apply is_package_json_spec |].
  split; [apply find_package_json_first |].
  split.
  - intros zip_path name Hfirst.
    assert (name ∈ namelist z) as Hin.
    { destruct Hfirst as (l1 & l2 & -> & _).
      apply elem_of_app. right. by left. }
    apply find_package_json_first in Hfirst.
    destruct (read_json_last z name Hin) as (z1 & r & z2 & E & Hz2 & Hr).
    exists z1, r, z2. split; [done |]. split; [done |].
    unfold extract_package_info. rewrite Hfirst, Hr. by destruct r.
  - intros zip_path. rewrite <- find_package_json_none.
    unfold extract_package_info.
    destruct (find_package_json z) as [p|]; [| done].
    split; [done |].
    by destruct (read_json z p).
Qed.

(** C4, as stated, fails: an entry can end with [package.json], have no
    separator before that suffix, and still not be the one selected, when
    an earlier entry passes the same test. *)
Lemma metadata_reader_skips_later_root_entry :
  "package.json" ∈ namelist Samples.two_roots /\
  root_metadata_path "package.json" /\
  find_package_json Samples.two_roots = Some "xpackage.json" /\
  extract_package_info "p.zip" (Zip Samples.two_roots)
  = (JObj [("name", JStr "com.example.other")], []).
Proof.
  split; [by right; left |].
  split; [by apply is_package_json_spec |].
  by split.
Qed.

End MetadataReader.

(** ** The accumulating mapping *)

Section Mapping.
Implicit Types (pk : gmap pykey package_record) (k : pykey) (v : string).

Lemma lookup_version_add pk k v (r : version_info) k' v' :
  lookup_version (add_version pk k v r) k' v'
  = if decide (k' = k /\ v' = v) then Some r else lookup_version pk k' v'.
Proof.
  unfold lookup_version, add_version.
  destruct (decide (k' = k)) as [-> | Hk].
  - rewrite lookup_insert_eq. simpl.
    destruct (decide (v' = v)) as [-> | Hv].
    + rewrite lookup_insert_eq. by rewrite decide_True.
    + rewrite lookup_insert_ne by done.
      rewrite decide_False by (by intros [_ ?]).
      by destruct (pk !! k).
  - rewrite lookup_insert_ne by done.
    by rewrite decide_False by (by intros [? _]).
Qed.

Lemma all_nonempty_empty : all_nonempty ∅.
Proof. intros k p H. by rewrite lookup_empty in H. Qed.

Lemma all_nonempty_add pk k v (r : version_info) :
  all_nonempty pk -> all_nonempty (add_version pk k v r).
Proof.
  intros H k' p. unfold add_version.
  destruct (decide (k' = k)) as [-> | Hk].
  - rewrite lookup_insert_eq. intros [= <-]. simpl.
    apply insert_non_empty.
  - rewrite lookup_insert_ne by done. apply H.
Qed.

End Mapping.

(** ** Package Scanner *)

Section ScannerFacts.
Context {db : Unicode}.
Import PyStr PyStrFacts.

Variable py_repr : json -> string.

Abbreviation py_format := (py_format py_repr).
Abbreviation download_url := (download_url py_repr).
Abbreviation contribution := (contribution py_repr).
Abbreviation record_all := (record_all py_repr).
Abbreviation process_file := (process_file py_repr).
Abbreviation scan_item := (scan_item py_repr).
Abbreviation scan_packages := (scan_packages py_repr).
Abbreviation generate_index := (generate_index py_repr).

(** Formatting the template pastes the two values after the fixed prefix. *)
Lemma format_download_url (plugin_name filename : string) :
  Format.format DOWNLOAD_URL_BASE
    [("plugin_name", plugin_name); ("filename", filename)]
  = Some (url_prefix ++ plugin_name ++ "/" ++ filename).
Proof.
  rewrite <- (app_empty_r filename) at 2. reflexivity.
Qed.

Lemma download_url_eq (info : pydict) (filename : string) :
  download_url info filename
  = Some (url_prefix ++ py_format (Dict.get info "displayName")
          ++ "/" ++ filename).
Proof. apply format_download_url. Qed.

(** The fields of a Version Record. *)
Lemma version_info_fields (info : pydict) (version url : string) :
  let r := build_version_info info version url in
  Dict.lookup r "name" = Some (Dict.get info "name") /\
  Dict.lookup r "displayName" = Some (Dict.get info "displayName") /\
  Dict.lookup r "version" = Some (JStr version) /\
  Dict.lookup r "unity" = Some (Dict.get info "unity") /\
  Dict.lookup r "description" = Some (Dict.get info "description") /\
  Dict.lookup r "url" = Some (JStr url) /\
  Dict.lookup r "vpmDependencies" = Dict.lookup info "vpmDependencies" /\
  Dict.lookup r "author" = Dict.lookup info "author".
Proof.
  unfold build_version_info.
  destruct (Dict.lookup info "vpmDependencies") as [deps|];
    destruct (Dict.lookup info "author") as [author|];
    repeat split; reflexivity.
Qed.

(** What an archive must be like to write an entry, and the entry. *)
Lemma contribution_spec (s : source) (k : pykey) (v : string)
  (r : version_info) :
  contribution s = Some (k, v, r) <->
  qualifies (src_filename s) = true /\
  extract_version_from_filename (src_filename s) = Some v /\
  exists info,
    metadata s = JObj info /\
    truthy (Dict.get info "name") = true /\
    hash_key (Dict.get info "name") = Some k /\
    r = build_version_info info v
          (url_prefix ++ py_format (Dict.get info "displayName")
           ++ "/" ++ src_filename s).
Proof.
  split.
  - unfold contribution. intros H.
    destruct (qualifies (src_filename s)); [| done].
    destruct (extract_version_from_filename (src_filename s)) as [v0|];
      [| done].
    cbn [mbind option_bind] in H.
    destruct (metadata s) as [| | | | |info]; try done.
    destruct (truthy (Dict.get info "name")) eqn:Ht; [| done].
    destruct (hash_key (Dict.get info "name")) as [k0|] eqn:Hk; [| done].
    cbn [mbind option_bind] in H. rewrite download_url_eq in H.
    cbn [mbind option_bind] in H. injection H as <- <- <-.
    split; [done |]. split; [done |]. by exists info.
  - intros (Hq & Hv & info & Hm & Ht & Hk & ->).
    unfold contribution. rewrite Hq, Hv. cbn [mbind option_bind].
    rewrite Hm, Ht, Hk. cbn [mbind option_bind].
    by rewrite download_url_eq.
Qed.

(** *** One archive *)

Lemma record_all_nil (pk : gmap pykey package_record) : record_all pk [] = pk.
Proof. done. Qed.

Lemma record_all_cons (pk : gmap pykey package_record) (s : source)
  (l : list source) :
  record_all pk (s :: l)
  = record_all (match contribution s with
                | Some (k, v, r) => add_version pk k v r
                | None => pk
                end) l.
Proof. done. Qed.

Lemma record_all_app (pk : gmap pykey package_record) (l1 l2 : list source) :
  record_all pk (l1 ++ l2) = record_all (record_all pk l1) l2.
Proof. apply fold_left_app. Qed.

(** An archive with a contribution is processed without an exception, and
    its entry is written. *)
Lemma process_file_emits (dir : string) (st : scan_state) (filename : string)
  (zf : zipfile) (k : pykey) (v : string) (r : version_info) :
  contribution {| src_dir := dir; src_filename := filename; src_zip := zf |}
  = Some (k, v, r) ->
  exists out,
    process_file dir st (filename, zf)
    = Ok {| packages := add_version (packages st) k v r;
            printed := printed st ++ out |}.
Proof.
  intros (Hq & Hv & info & Hm & Ht & Hk & ->)%contribution_spec.
  unfold qualifies, metadata in *. cbn [src_dir src_filename src_zip] in *.
  apply andb_true_iff in Hq as [Hzip Hvpm].
  unfold process_file. rewrite Hzip, Hvpm, Hv. cbn [negb].
  destruct (extract_package_info (path_join dir filename) zf) as [pi out].
  cbn [fst] in Hm. subst pi. rewrite Ht, Hk. cbn [negb].
  rewrite download_url_eq.
  exists (out ++ [Added (Dict.get info "name") v])%list.
  unfold add_version. cbn [say packages printed].
  destruct (packages st !! k) as [p|] eqn:E.
  - rewrite E. cbn [from_option]. by rewrite (assoc_L (++)%list).
  - rewrite lookup_insert_eq, insert_insert_eq. cbn [from_option versions].
    by rewrite (assoc_L (++)%list).
Qed.

(** An archive without a contribution leaves the mapping as it was, unless
    an exception escapes. *)
Lemma process_file_skips (dir : string) (st st' : scan_state)
  (filename : string) (zf : zipfile) :
  contribution {| src_dir := dir; src_filename := filename; src_zip := zf |}
  = None ->
  process_file dir st (filename, zf) = Ok st' ->
  packages st' = packages st.
Proof.
  unfold contribution, process_file, qualifies, metadata.
  cbn [src_dir src_filename src_zip].
  destruct (endswith filename ".zip"); cbn [negb andb];
    [| by intros _ [= <-]].
  destruct (startswith filename "vpm."); cbn [negb];
    [| by intros _ [= <-]].
  destruct (extract_version_from_filename filename) as [v|];
    cbn [mbind option_bind]; [| by intros _ [= <-]].
  destruct (extract_package_info (path_join dir filename) zf) as [pi out].
  cbn [fst].
  destruct pi as [| | | | |info]; try done; [by intros _ [= <-] |].
  destruct (truthy (Dict.get info "name")); cbn [negb];
    [| by intros _ [= <-]].
  destruct (hash_key (Dict.get info "name")) as [k|];
    cbn [mbind option_bind]; [| done].
  by rewrite download_url_eq.
Qed.

Lemma process_file_packages (dir : string) (st st' : scan_state)
  (filename : string) (zf : zipfile) :
  process_file dir st (filename, zf) = Ok st' ->
  packages st'
  = record_all (packages st)
      [{| src_dir := dir; src_filename := filename; src_zip := zf |}].
Proof.
  intros H. rewrite record_all_cons, record_all_nil.
  destruct (contribution _) as [[[k v] r]|] eqn:E.
  - destruct (process_file_emits dir st filename zf k v r E) as [out H'].
    rewrite H' in H. by injection H as <-.
  - by eapply process_file_skips.
Qed.

(** *** The two loops *)

Lemma scan_listing_packages (dir : string)
  (listing : list (string * zipfile)) (st st' : scan_state) :
  for_each (process_file dir) st listing = Ok st' ->
  packages st'
  = record_all (packages st)
      (map (fun e => {| src_dir := dir; src_filename := e.1;
                        src_zip := e.2 |}) listing).
Proof.
  revert st. induction listing as [|[filename zf] listing IH]; intros st.
  - by intros [= <-].
  - cbn [for_each map].
    destruct (process_file dir st (filename, zf)) as [st1|e] eqn:E; [| done].
    intros H. rewrite (IH _ H).
    rewrite (process_file_packages _ _ _ _ _ E).
    by rewrite <- record_all_app.
Qed.

Lemma scan_item_packages (st st' : scan_state) (item : string * node) :
  scan_item st item = Ok st' ->
  packages st' = record_all (packages st) (item_sources item).
Proof.
  destruct item as [name [|listing]]; unfold scan_item, item_sources;
    cbn [fst snd].
  - by intros [= <-].
  - destruct (startswith name "."); [by intros [= <-] |].
    intros H. by rewrite (scan_listing_packages _ _ _ _ H).
Qed.

Lemma scan_tree_packages (t : tree) (st st' : scan_state) :
  for_each scan_item st t = Ok st' ->
  packages st' = record_all (packages st) (sources t).
Proof.
  revert st. induction t as [|item t IH]; intros st.
  - by intros [= <-].
  - cbn [for_each]. unfold sources. cbn [flat_map].
    destruct (scan_item st item) as [st1|e] eqn:E; [| done].
    intros H. rewrite (IH _ H), (scan_item_packages _ _ _ E).
    by rewrite record_all_app.
Qed.

(** The mapping a scan returns is the fold of the contributions. *)
Lemma scan_packages_record_all (t : tree) (st : scan_state) :
  scan_packages t = Ok st -> packages st = record_all ∅ (sources t).
Proof. apply scan_tree_packages. Qed.

(** *** What the fold of contributions holds *)

(** Every entry was written by some archive. *)
Lemma record_all_lookup_inv (pk : gmap pykey package_record)
  (l : list source) (k : pykey) (v : string) (r : version_info) :
  lookup_version (record_all pk l) k v = Some r ->
  lookup_version pk k v = Some r \/
  exists s, s ∈ l /\ contribution s = Some (k, v, r).
Proof.
  revert pk. induction l as [|s l IH]; intros pk H; [by left |].
  rewrite record_all_cons in H.
  apply IH in H as [H | (s' & Hin & Hc)].
  - destruct (contribution s) as [[[k0 v0] r0]|] eqn:E; [| by left].
    rewrite lookup_version_add in H.
    destruct (decide (k = k0 /\ v = v0)) as [[-> ->] | Hd]; [| by left].
    injection H as <-. right. exists s. split; [by left | done].
  - right. exists s'. split; [by right | done].
Qed.

(** Archives that write other entries leave this one alone. *)
Lemma record_all_untouched (pk : gmap pykey package_record)
  (l : list source) (k : pykey) (v : string) :
  (forall s r, s ∈ l -> contribution s <> Some (k, v, r)) ->
  lookup_version (record_all pk l) k v = lookup_version pk k v.
Proof.
  revert pk. induction l as [|s l IH]; intros pk H; [done |].
  rewrite record_all_cons, IH.
  - destruct (contribution s) as [[[k0 v0] r0]|] eqn:E; [| done].
    rewrite lookup_version_add.
    destruct (decide (k = k0 /\ v = v0)) as [[-> ->] | Hd]; [| done].
    exfalso. apply (H s r0); [by left | done].
  - intros s' r' Hin. apply H. by right.
Qed.

(** The last archive that writes an entry decides it. *)
Lemma record_all_last (pk : gmap pykey package_record)
  (l1 l2 : list source) (s : source) (k : pykey) (v : string)
  (r : version_info) :
  contribution s = Some (k, v, r) ->
  (forall s' r', s' ∈ l2 -> contribution s' <> Some (k, v, r')) ->
  lookup_version (record_all pk (l1 ++ s :: l2)) k v = Some r.
Proof.
  intros Hc Hl2. rewrite record_all_app, record_all_cons, Hc.
  rewrite record_all_untouched by done.
  rewrite lookup_version_add. by rewrite decide_True.
Qed.

(** No entry is ever removed. *)
Lemma record_all_keeps (pk : gmap pykey package_record)
  (l : list source) (k : pykey) (v : string) :
  is_Some (lookup_version pk k v) ->
  is_Some (lookup_version (record_all pk l) k v).
Proof.
  revert pk. induction l as [|s l IH]; intros pk H; [done |].
  rewrite record_all_cons. apply IH.
  destruct (contribution s) as [[[k0 v0] r0]|]; [| done].
  rewrite lookup_version_add. by case_decide.
Qed.

(** Every archive with a contribution leaves an entry at its key and
    version. *)
Lemma record_all_present (pk : gmap pykey package_record)
  (l : list source) (s : source) (k : pykey) (v : string)
  (r : version_info) :
  s ∈ l -> contribution s = Some (k, v, r) ->
  is_Some (lookup_version (record_all pk l) k v).
Proof.
  revert pk. induction l as [|a l IH]; intros pk Hin Hc.
  - by apply elem_of_nil in Hin.
  - rewrite record_all_cons.
    apply elem_of_cons in Hin as [<- | Hin]; [| by apply IH].
    rewrite Hc. apply record_all_keeps.
    rewrite lookup_version_add. by rewrite decide_True.
Qed.

Lemma record_all_nonempty (pk : gmap pykey package_record)
  (l : list source) :
  all_nonempty pk -> all_nonempty (record_all pk l).
Proof.
  revert pk. induction l as [|s l IH]; intros pk H; [done |].
  rewrite record_all_cons. apply IH.
  destruct (contribution s) as [[[k v] r]|]; [| done].
  by apply all_nonempty_add.
Qed.

(** *** Where the archives of a scan come from *)

Lemma sources_origin (t : tree) (s : source) :
  s ∈ sources t ->
  startswith (src_dir s) "." = false /\
  exists listing,
    (src_dir s, Dir listing) ∈ t /\ (src_filename s, src_zip s) ∈ listing.
Proof.
  unfold sources. rewrite list_elem_of_In, in_flat_map.
  intros ([name [|listing]] & Hitem & Hs); unfold item_sources in Hs;
    cbn [fst snd] in Hs; [done |].
  destruct (startswith name ".") eqn:E; [done |].
  apply in_map_iff in Hs as ([f zf] & <- & Hin). cbn [src_dir src_filename src_zip fst snd].
  split; [done |]. exists listing. by rewrite !list_elem_of_In.
Qed.

(** Every entry of a returned mapping was written by an archive of the
    scan. *)
Lemma scan_packages_provenance (t : tree) (st : scan_state) (k : pykey)
  (v : string) (r : version_info) :
  scan_packages t = Ok st ->
  lookup_version (packages st) k v = Some r ->
  exists s, s ∈ sources t /\ contribution s = Some (k, v, r).
Proof.
  intros Hscan H. rewrite (scan_packages_record_all _ _ Hscan) in H.
  apply record_all_lookup_inv in H as [H | H]; [| done].
  unfold lookup_version in H. by rewrite lookup_empty in H.
Qed.

Lemma generate_index_inv (t : tree) (idx : index) :
  generate_index t = Ok idx ->
  exists st, scan_packages t = Ok st /\ idx_packages idx = packages st.
Proof.
  unfold generate_index. destruct (scan_packages t) as [st|e]; [| done].
  intros [= <-]. by exists st.
Qed.

(** Every Version Record of an emitted index was written by an archive of
    the scan. *)
Lemma index_provenance (t : tree) (idx : index) (k : pykey)
  (p : package_record) (v : string) (r : version_info) :
  generate_index t = Ok idx ->
  idx_packages idx !! k = Some p -> versions p !! v = Some r ->
  exists s, s ∈ sources t /\ contribution s = Some (k, v, r).
Proof.
  intros (st & Hscan & Hpk)%generate_index_inv Hp Hv.
  apply (scan_packages_provenance t st); [done |].
  unfold lookup_version. rewrite <- Hpk, Hp. done.
Qed.

(** *** Files that do not pass the filename test *)

Lemma process_file_unqualified (dir : string) (st : scan_state)
  (filename : string) (zf : zipfile) :
  qualifies filename = false -> process_file dir st (filename, zf) = Ok st.
Proof.
  unfold qualifies, process_file.
  destruct (endswith filename ".zip"); [| done].
  by destruct (startswith filename "vpm.").
Qed.

Lemma scan_listing_filter (dir : string) (listing : list (string * zipfile))
  (st : scan_state) :
  for_each (process_file dir) st listing
  = for_each (process_file dir) st
      (List.filter (fun e => qualifies e.1) listing).
Proof.
  revert st. induction listing as [|[filename zf] listing IH]; intros st;
    [done |].
  cbn [List.filter fst]. destruct (qualifies filename) eqn:E.
  - cbn [for_each]. by destruct (process_file dir st (filename, zf)).
  - cbn [for_each]. by rewrite process_file_unqualified.
Qed.

Lemma scan_tree_prune (t : tree) (st : scan_state) :
  for_each scan_item st t = for_each scan_item st (prune t).
Proof.
  revert st. induction t as [|[name n] t IH]; intros st; [done |].
  cbn [prune map for_each fst snd].
  assert (scan_item st (name, n)
          = scan_item st
              (name,
               match n with
               | NotDir => NotDir
               | Dir listing =>
                   Dir (if startswith name "." then []
                        else List.filter (fun e => qualifies e.1) listing)
               end)) as <-.
  { destruct n as [|listing]; [done |]. unfold scan_item.
    destruct (startswith name "."); [done |]. apply scan_listing_filter. }
  destruct (scan_item st (name, n)); [apply IH | done].
Qed.

End ScannerFacts.

(** ** The claims about the Package Scanner *)

Section ScannerClaims.
Context {db : Unicode}.
Import PyStr PyStrFacts.

Variable py_repr : json -> string.

Abbreviation py_format := (py_format py_repr).
Abbreviation contribution := (contribution py_repr).
Abbreviation process_file := (process_file py_repr).
Abbreviation scan_packages := (scan_packages py_repr).
Abbreviation generate_index := (generate_index py_repr).

(** When an exception escapes the inner loop body: the metadata file parsed
    to something that is neither [null] nor an object, or the object's name
    is a non-empty list or dict. *)
Lemma process_file_raises (dir : string) (st : scan_state)
  (filename : string) (zf : zipfile) (e : exn) :
  process_file dir st (filename, zf) = Raise e ->
  qualifies filename = true /\
  is_Some (extract_version_from_filename filename) /\
  let data := (extract_package_info (path_join dir filename) zf).1 in
  (e = AttributeError /\ data <> JNull /\ forall info, data <> JObj info) \/
  (e = TypeError /\
   exists info, data = JObj info /\ truthy (Dict.get info "name") = true /\
                hash_key (Dict.get info "name") = None).
Proof.
  unfold process_file, qualifies.
  destruct (endswith filename ".zip"); [| done].
  destruct (startswith filename "vpm."); [| done]. cbn [negb andb].
  destruct (extract_version_from_filename filename) as [v|]; [| done].
  destruct (extract_package_info (path_join dir filename) zf) as [pi out].
  cbn [fst]. intros H. split; [done |]. split; [by exists v |].
  destruct pi as [| | | | |info]; try done;
    try (injection H as <-; left; by repeat split).
  destruct (truthy (Dict.get info "name")) eqn:Ht; [| done]. cbn [negb] in H.
  destruct (hash_key (Dict.get info "name")) as [k|] eqn:Hk.
  - rewrite download_url_eq in H. cbn [say packages] in H.
    destruct (packages st !! k) as [p|] eqn:E;
      [rewrite E in H | rewrite lookup_insert_eq in H]; done.
  - injection H as <-. right. split; [done |]. by exists info.
Qed.

(** C1.  The claim fails on the code: a metadata file that holds a JSON
    array passes the Metadata Reader, and [package_info.get] raises an
    [AttributeError] that nothing in [scan_packages] catches; a name that is
    a non-empty list raises a [TypeError] at [package_name not in packages].
    A metadata file that holds [null] is skipped without any line printed
    for it. *)
Theorem scan_packages_lets_exceptions_escape :
  scan_packages Samples.tree_array = Raise AttributeError /\
  scan_packages Samples.tree_list_name = Raise TypeError /\
  scan_packages Samples.tree_null
  = Ok {| packages := ∅; printed := [ScanningDirectory "plugin"] |}.
Proof. repeat split; reflexivity. Qed.

(** C3.  A Version Record of the emitted index, found under package key
    [k] and version key [v], was written by an archive of the scan whose
    filename yields [v], and its [version] field is [v]: the key and the
    field are the filename's version, whatever the metadata declares. *)
Theorem emitted_version_is_filename_version (t : tree) (idx : index)
  (k : pykey) (p : package_record) (v : string) (r : version_info) :
  generate_index t = Ok idx ->
  idx_packages idx !! k = Some p ->
  versions p !! v = Some r ->
  Dict.lookup r "version" = Some (JStr v) /\
  exists s,
    s ∈ sources t /\
    extract_version_from_filename (src_filename s) = Some v /\
    contribution s = Some (k, v, r).
Proof.
  intros Hidx Hp Hv.
  destruct (index_provenance py_repr t idx k p v r Hidx Hp Hv) as (s & Hin & Hc).
  pose proof Hc as (_ & Hver & info & _ & _ & _ & ->)%contribution_spec.
  split; [apply version_info_fields |]. by exists s.
Qed.

(** C5.  The [url] field of an emitted Version Record is what [str.format]
    makes of the template: the fixed prefix, then the formatted display
    name, a slash and the archive's filename, character for character.  A
    display name that is a string is pasted as it is. *)
Theorem emitted_url_is_textual (t : tree) (idx : index)
  (k : pykey) (p : package_record) (v : string) (r : version_info) :
  generate_index t = Ok idx ->
  idx_packages idx !! k = Some p ->
  versions p !! v = Some r ->
  exists s info url,
    s ∈ sources t /\ metadata s = JObj info /\
    contribution s = Some (k, v, r) /\
    Format.format DOWNLOAD_URL_BASE
      [("plugin_name", py_format (Dict.get info "displayName"));
       ("filename", src_filename s)] = Some url /\
    Dict.lookup r "url" = Some (JStr url) /\
    url = url_prefix ++ py_format (Dict.get info "displayName")
          ++ "/" ++ src_filename s /\
    forall display_name,
      Dict.lookup info "displayName" = Some (JStr display_name) ->
      url = url_prefix ++ display_name ++ "/" ++ src_filename s.
Proof.
  intros Hidx Hp Hv.
  destruct (index_provenance py_repr t idx k p v r Hidx Hp Hv) as (s & Hin & Hc).
  pose proof Hc as (_ & _ & info & Hm & _ & _ & ->)%contribution_spec.
  exists s, info, (url_prefix ++ py_format (Dict.get info "displayName")
                   ++ "/" ++ src_filename s).
  repeat split; try done.
  - apply format_download_url.
  - apply version_info_fields.
  - intros d Hd. unfold Dict.get. by rewrite Hd.
Qed.

(** C6.  In the mapping a scan returns: two archives that write the same
    package key with different versions both have their entry under that
    key; the entry at a package key and version is the record of the last
    archive in scan order that writes it; and processing an archive changes
    no entry other than the one at its own key and version. *)
Theorem versions_merge_last_seen_wins (t : tree) (st : scan_state) :
  scan_packages t = Ok st ->
  (forall s1 s2 k v1 v2 r1 r2,
     s1 ∈ sources t -> s2 ∈ sources t ->
     contribution s1 = Some (k, v1, r1) ->
     contribution s2 = Some (k, v2, r2) ->
     v1 <> v2 ->
     exists p, packages st !! k = Some p /\
               is_Some (versions p !! v1) /\ is_Some (versions p !! v2)) /\
  (forall (l1 l2 : list source) s k v r,
     sources t = (l1 ++ s :: l2)%list ->
     contribution s = Some (k, v, r) ->
     (forall s' r', s' ∈ l2 -> contribution s' <> Some (k, v, r')) ->
     lookup_version (packages st) k v = Some r) /\
  (forall dir st0 st1 filename zf k v r,
     process_file dir st0 (filename, zf) = Ok st1 ->
     contribution {| src_dir := dir; src_filename := filename;
                     src_zip := zf |} = Some (k, v, r) ->
     lookup_version (packages st1) k v = Some r /\
     forall k' v', k' <> k \/ v' <> v ->
       lookup_version (packages st1) k' v'
       = lookup_version (packages st0) k' v').
Proof.
  intros Hscan. pose proof (scan_packages_record_all _ _ _ Hscan) as Hpk.
  split; [| split].
  - intros s1 s2 k v1 v2 r1 r2 Hin1 Hin2 Hc1 Hc2 _.
    pose proof (record_all_present py_repr ∅ _ _ _ _ _ Hin1 Hc1) as [x1 H1].
    pose proof (record_all_present py_repr ∅ _ _ _ _ _ Hin2 Hc2) as [x2 H2].
    rewrite <- Hpk in H1, H2. unfold lookup_version in H1, H2.
    destruct (packages st !! k) as [p|]; [| done].
    exists p. cbn [mbind option_bind] in H1, H2. by rewrite H1, H2.
  - intros l1 l2 s k v r Hsrc Hc Hl2. rewrite Hpk, Hsrc.
    by apply record_all_last.
  - intros dir st0 st1 filename zf k v r Hstep Hc.
    rewrite (process_file_packages _ _ _ _ _ _ Hstep).
    rewrite record_all_cons, record_all_nil, Hc.
    split.
    + rewrite lookup_version_add. by rewrite decide_True.
    + intros k' v' Hne. rewrite lookup_version_add.
      rewrite decide_False; [done |]. intros [-> ->]. by destruct Hne.
Qed.

(** C7.  Deleting every file whose name lacks the [vpm.] prefix or the
    [.zip] extension, and every file of a top-level directory whose name
    starts with a dot, changes nothing of what a scan returns, prints or
    raises; and every entry of a returned mapping was written by an archive
    with the prefix and the extension that lies in a directory whose name
    does not start with a dot. *)
Theorem ignored_files_contribute_nothing (t : tree) :
  scan_packages t = scan_packages (prune t) /\
  forall st k v r,
    scan_packages t = Ok st ->
    lookup_version (packages st) k v = Some r ->
    exists s,
      s ∈ sources t /\ contribution s = Some (k, v, r) /\
      startswith (src_filename s) "vpm." = true /\
      endswith (src_filename s) ".zip" = true /\
      startswith (src_dir s) "." = false.
Proof.
  split; [exact (scan_tree_prune py_repr t initial_state) |].
  intros st k v r Hscan H.
  destruct (scan_packages_provenance py_repr t st k v r Hscan H)
    as (s & Hin & Hc).
  exists s. split; [exact Hin |]. split; [exact Hc |].
  apply contribution_spec in Hc as (Hq & _).
  apply andb_true_iff in Hq as [Hzip Hvpm].
  split; [exact Hvpm |]. split; [exact Hzip |].
  apply sources_origin in Hin as [Hdir _]. exact Hdir.
Qed.

(** C8.  An emitted Version Record has the key [vpmDependencies]
    (respectively [author]) exactly when the metadata it was built from has
    it, and then with the same value: a missing key stays missing, it is
    not turned into a null. *)
Theorem optional_keys_copied_or_absent (t : tree) (idx : index)
  (k : pykey) (p : package_record) (v : string) (r : version_info) :
  generate_index t = Ok idx ->
  idx_packages idx !! k = Some p ->
  versions p !! v = Some r ->
  exists s info,
    s ∈ sources t /\ metadata s = JObj info /\
    contribution s = Some (k, v, r) /\
    Dict.lookup r "vpmDependencies" = Dict.lookup info "vpmDependencies" /\
    Dict.lookup r "author" = Dict.lookup info "author".
Proof.
  intros Hidx Hp Hv.
  destruct (index_provenance py_repr t idx k p v r Hidx Hp Hv) as (s & Hin & Hc).
  pose proof Hc as (_ & _ & info & Hm & _ & _ & ->)%contribution_spec.
  exists s, info. repeat split; try done; apply version_info_fields.
Qed.


(** C10.  Every package of an emitted index has at least one version. *)
Theorem emitted_packages_have_versions (t : tree) (idx : index)
  (k : pykey) (p : package_record) :
  generate_index t = Ok idx ->
  idx_packages idx !! k = Some p ->
  versions p <> ∅.
Proof.
  intros (st & Hscan & Hpk)%generate_index_inv Hp.
  rewrite Hpk, (scan_packages_record_all _ _ _ Hscan) in Hp.
  eapply record_all_nonempty; [apply all_nonempty_empty | exact Hp].
Qed.

End ScannerClaims.

(** ** The claims at sample inputs *)

Section Witnesses.
#[local] Existing Instance Samples.unicode_sample.
Import Samples.

(** In [two_roots] the first root entry is [xpackage.json], and its content
    is what the reader returns. *)
Lemma metadata_reader_root_only_witness :
  first_root_metadata (namelist two_roots) "xpackage.json" /\
  exists z1 r z2,
    two_roots = (z1 ++ ("xpackage.json", r) :: z2)%list /\
    ("xpackage.json" ∉ namelist z2) /\
    extract_package_info "p.zip" (Zip two_roots)
    = match r with
      | ReadOk package_data => (package_data, [])
      | ReadRaises => (JNull, [ErrorReading "p.zip"])
      end.
Proof.
  assert (first_root_metadata (namelist two_roots) "xpackage.json") as H.
  { apply (proj1 (proj2 (metadata_reader_root_only two_roots))).
    reflexivity. }
  split; [exact H |].
  exact (proj1 (proj2 (proj2 (metadata_reader_root_only two_roots)))
           "p.zip" "xpackage.json" H).
Defined.

(** The scan of [tree_cool]: the metadata declares [9.9.9], the record
    holds the filename's [1.2.3]. *)
Lemma emitted_version_is_filename_version_witness :
  generate_index no_repr tree_cool = Ok (indexed tree_cool) /\
  idx_packages (indexed tree_cool) !! cool_key = Some cool_package /\
  versions cool_package !! "1.2.3" = Some cool_record /\
  Dict.lookup cool_record "version" = Some (JStr "1.2.3") /\
  exists s,
    s ∈ sources tree_cool /\
    extract_version_from_filename (src_filename s) = Some "1.2.3" /\
    contribution no_repr s = Some (cool_key, "1.2.3", cool_record).
Proof.
  assert (generate_index no_repr tree_cool = Ok (indexed tree_cool)) as H1
    by (vm_compute; reflexivity).
  assert (idx_packages (indexed tree_cool) !! cool_key = Some cool_package)
    as H2 by (vm_compute; reflexivity).
  assert (versions cool_package !! "1.2.3" = Some cool_record) as H3
    by (vm_compute; reflexivity).
  split; [exact H1 |]. split; [exact H2 |]. split; [exact H3 |].
  exact (emitted_version_is_filename_version no_repr tree_cool
           (indexed tree_cool) cool_key cool_package "1.2.3" cool_record
           H1 H2 H3).
Defined.

(** The scan of [tree_cool]: the URL keeps the space of [Cool Plugin]. *)
Lemma emitted_url_is_textual_witness :
  generate_index no_repr tree_cool = Ok (indexed tree_cool) /\
  idx_packages (indexed tree_cool) !! cool_key = Some cool_package /\
  versions cool_package !! "1.2.3" = Some cool_record /\
  exists s info url,
    s ∈ sources tree_cool /\ metadata s = JObj info /\
    contribution no_repr s = Some (cool_key, "1.2.3", cool_record) /\
    Format.format DOWNLOAD_URL_BASE
      [("plugin_name", py_format no_repr (Dict.get info "displayName"));
       ("filename", src_filename s)] = Some url /\
    Dict.lookup cool_record "url" = Some (JStr url) /\
    url = url_prefix ++ py_format no_repr (Dict.get info "displayName")
          ++ "/" ++ src_filename s /\
    forall display_name,
      Dict.lookup info "displayName" = Some (JStr display_name) ->
      url = url_prefix ++ display_name ++ "/" ++ src_filename s.
Proof.
  assert (generate_index no_repr tree_cool = Ok (indexed tree_cool)) as H1
    by (vm_compute; reflexivity).
  assert (idx_packages (indexed tree_cool) !! cool_key = Some cool_package)
    as H2 by (vm_compute; reflexivity).
  assert (versions cool_package !! "1.2.3" = Some cool_record) as H3
    by (vm_compute; reflexivity).
  split; [exact H1 |]. split; [exact H2 |]. split; [exact H3 |].
  exact (emitted_url_is_textual no_repr tree_cool (indexed tree_cool)
           cool_key cool_package "1.2.3" cool_record H1 H2 H3).
Defined.

(** The scan of [tree_versions]: both versions are under the one key, and
    the entry at [1.0.0] is the record of directory [b], scanned last. *)
Lemma versions_merge_last_seen_wins_witness :
  scan_packages no_repr tree_versions = Ok (scanned tree_versions) /\
  (exists p,
     packages (scanned tree_versions) !! cool_key = Some p /\
     is_Some (versions p !! "1.0.0") /\ is_Some (versions p !! "1.1.0")) /\
  lookup_version (packages (scanned tree_versions)) cool_key "1.0.0"
  = Some again_record.
Proof.
  assert (scan_packages no_repr tree_versions = Ok (scanned tree_versions))
    as H by (vm_compute; reflexivity).
  split; [exact H |].
  destruct (versions_merge_last_seen_wins no_repr tree_versions
              (scanned tree_versions) H) as (Hboth & Hlast & _).
  split.
  - eapply (Hboth source_a100 source_a110 cool_key "1.0.0" "1.1.0").
    + apply list_elem_of_here.
    + apply list_elem_of_further, list_elem_of_here.
    + vm_compute. reflexivity.
    + vm_compute. reflexivity.
    + discriminate.
  - apply (Hlast [source_a100; source_a110] [] source_b100).
    + reflexivity.
    + vm_compute. reflexivity.
    + intros s' r' Hin. by apply elem_of_nil in Hin.
Defined.

(** The scan of [tree_full]: dependencies and author are copied. *)
Lemma optional_keys_copied_or_absent_witness :
  generate_index no_repr tree_full = Ok (indexed tree_full) /\
  idx_packages (indexed tree_full) !! KStr "com.example.full"
  = Some full_package /\
  versions full_package !! "0.1.0" = Some full_record /\
  exists s info,
    s ∈ sources tree_full /\ metadata s = JObj info /\
    contribution no_repr s
    = Some (KStr "com.example.full", "0.1.0", full_record) /\
    Dict.lookup full_record "vpmDependencies"
    = Dict.lookup info "vpmDependencies" /\
    Dict.lookup full_record "author" = Dict.lookup info "author".
Proof.
  assert (generate_index no_repr tree_full = Ok (indexed tree_full)) as H1
    by (vm_compute; reflexivity).
  assert (idx_packages (indexed tree_full) !! KStr "com.example.full"
          = Some full_package) as H2 by (vm_compute; reflexivity).
  assert (versions full_package !! "0.1.0" = Some full_record) as H3
    by (vm_compute; reflexivity).
  split; [exact H1 |]. split; [exact H2 |]. split; [exact H3 |].
  exact (optional_keys_copied_or_absent no_repr tree_full (indexed tree_full)
           (KStr "com.example.full") full_package "0.1.0" full_record
           H1 H2 H3).
Defined.


(** The scan of [tree_cool]: its one package has a version. *)
Lemma emitted_packages_have_versions_witness :
  generate_index no_repr tree_cool = Ok (indexed tree_cool) /\
  idx_packages (indexed tree_cool) !! cool_key = Some cool_package /\
  versions cool_package <> ∅.
Proof.
  assert (generate_index no_repr tree_cool = Ok (indexed tree_cool)) as H1
    by (vm_compute; reflexivity).
  assert (idx_packages (indexed tree_cool) !! cool_key = Some cool_package)
    as H2 by (vm_compute; reflexivity).
  split; [exact H1 |]. split; [exact H2 |].
  exact (emitted_packages_have_versions no_repr tree_cool (indexed tree_cool)
           cool_key cool_package H1 H2).
Defined.

End Witnesses.

(** * Further properties of the code *)

(** ** Version Extractor *)

Section VersionExtractorMore.
Context {db : Unicode}.
Import PyStr PyStrFacts Re ReFacts.

(** The pattern matches at no position that has a hyphen further right. *)
Lemma match_version_at_before_hyphen (c : ascii) (pre rest : string) :
  match_version_at (String c (pre ++ "-" ++ rest)) = None.
Proof.
  destruct (match_version_at _) as [v|] eqn:E; [| done].
  apply match_version_at_inv in E as (Hv & tail & Ht & E).
  injection E as -> E.
  assert (has_char "-" (pre ++ "-" ++ rest) = false) as Hno.
  { etrans; [| apply (version_lacks_hyphen v tail Hv Ht)]. f_equal. exact E. }
  rewrite has_char_app in Hno. simpl in Hno.
  by rewrite orb_true_r in Hno.
Qed.

Lemma search_version_last_hyphen (pre rest : string) :
  search_version (pre ++ "-" ++ rest) = search_version ("-" ++ rest).
Proof.
  induction pre as [|c pre IH]; [done |].
  change (String c pre ++ ?r) with (String c (pre ++ r)).
  cbn [search_version]. by rewrite match_version_at_before_hyphen, IH.
Qed.

Lemma version_suffix_has_hyphen (filename v tail : string) :
  version_suffix filename v tail -> has_char "-" filename = true.
Proof.
  intros (_ & pre & ->). rewrite has_char_app. simpl.
  by rewrite orb_true_r.
Qed.

(** X1.  The text before a hyphen never decides the result: the extractor
    returns for [pre-rest] what it returns for [-rest], so only the last
    hyphen and what follows it matter; and a filename without any hyphen
    has no version. *)
Theorem version_depends_on_last_hyphen :
  (forall pre rest,
     extract_version_from_filename (pre ++ "-" ++ rest)
     = extract_version_from_filename ("-" ++ rest)) /\
  (forall filename,
     has_char "-" filename = false ->
     extract_version_from_filename filename = None).
Proof.
  split.
  - intros pre rest. rewrite !extract_version_is_search.
    apply search_version_last_hyphen.
  - intros filename Hno.
    destruct (extract_version_from_filename filename) as [v|] eqn:E; [| done].
    apply extract_version_inv in E as [H | H];
      apply version_suffix_has_hyphen in H; congruence.
Qed.

(** A name that ends with the extension and yields a version ends with the
    version and the extension. *)
Lemma extract_version_zip (filename v : string) :
  endswith filename ".zip" = true ->
  extract_version_from_filename filename = Some v ->
  version_suffix filename v "".
Proof.
  intros Hzip [H | (_ & pre & ->)]%extract_version_inv; [done |].
  rewrite <- !app_assoc in Hzip.
  by rewrite endswith_zip_line_feed in Hzip.
Qed.

End VersionExtractorMore.

(** ** Metadata Reader *)

Section MetadataReaderMore.
Import PyStr PyStrFacts.

Lemma find_package_json_root_entries (z : archive) :
  find_package_json (root_entries z) = find_package_json z.
Proof.
  unfold find_package_json, root_entries, namelist.
  induction z as [|[n r] z IH]; [done |].
  cbn [List.filter fst]. destruct (is_package_json n) eqn:E.
  - cbn [map List.find fst]. by rewrite E.
  - cbn [map List.find fst]. by rewrite E.
Qed.

Lemma existsb_root_entries (z : archive) (p : string) :
  is_package_json p = true ->
  existsb (String.eqb p) (namelist (root_entries z))
  = existsb (String.eqb p) (namelist z).
Proof.
  intros Hp. unfold root_entries, namelist.
  induction z as [|[n r] z IH]; [done |].
  cbn [List.filter fst]. destruct (is_package_json n) eqn:E.
  - cbn [map existsb fst]. by rewrite IH.
  - cbn [map existsb fst]. rewrite IH.
    destruct (String.eqb_spec p n) as [-> | _]; [congruence | done].
Qed.

Lemma read_json_root_entries (z : archive) (p : string) :
  is_package_json p = true ->
  read_json (root_entries z) p = read_json z p.
Proof.
  intros Hp. induction z as [|[n r] z IH]; [done |].
  change (root_entries ((n, r) :: z))
    with (if is_package_json n then (n, r) :: root_entries z
          else root_entries z).
  destruct (is_package_json n) eqn:E.
  - cbn [read_json]. by rewrite existsb_root_entries, IH.
  - cbn [read_json]. rewrite IH.
    destruct (String.eqb_spec n p) as [-> | _]; [congruence | done].
Qed.

(** X3.  Only the entries that pass the root-metadata test decide what the
    Metadata Reader returns and prints: every other entry of the archive,
    the payload and any metadata file in a subdirectory, can be removed
    without changing the result. *)
Theorem metadata_reader_ignores_other_entries (zip_path : string)
  (z : archive) :
  extract_package_info zip_path (Zip (root_entries z))
  = extract_package_info zip_path (Zip z).
Proof.
  cbn [extract_package_info]. rewrite find_package_json_root_entries.
  destruct (find_package_json z) as [p|] eqn:E; [| done].
  rewrite read_json_root_entries; [done |].
  unfold find_package_json in E. by apply find_some in E as [_ ?].
Qed.

End MetadataReaderMore.

(** ** Package Scanner: exceptions *)

Section ScannerFaults.
Context {db : Unicode}.
Import PyStr PyStrFacts.

Variable py_repr : json -> string.

Abbreviation process_file := (process_file py_repr).
Abbreviation scan_item := (scan_item py_repr).
Abbreviation scan_packages := (scan_packages py_repr).








End ScannerFaults.

(** ** Package Scanner: what is printed *)

Section ScannerLog.
Context {db : Unicode}.
Import PyStr PyStrFacts.

Variable py_repr : json -> string.

Abbreviation contribution := (contribution py_repr).
Abbreviation process_file := (process_file py_repr).
Abbreviation scan_item := (scan_item py_repr).
Abbreviation scan_packages := (scan_packages py_repr).

Lemma added_lines_app (l1 l2 : list event) :
  added_lines (l1 ++ l2) = (added_lines l1 ++ added_lines l2)%list.
Proof. apply omap_app. Qed.

Lemma scanning_lines_app (l1 l2 : list event) :
  scanning_lines (l1 ++ l2) = (scanning_lines l1 ++ scanning_lines l2)%list.
Proof. apply omap_app. Qed.

(** The Metadata Reader prints neither an [Added] nor a [Scanning] line. *)
Lemma reader_prints (zip_path : string) (zf : zipfile) :
  added_lines (extract_package_info zip_path zf).2 = [] /\
  scanning_lines (extract_package_info zip_path zf).2 = [].
Proof.
  destruct zf as [|z]; cbn [extract_package_info]; [done |].
  destruct (find_package_json z) as [p|]; [| done].
  by destruct (read_json z p).
Qed.

(** The loop body only appends to what was printed; it appends an [Added]
    line exactly for an archive it records. *)
Lemma process_file_log (dir : string) (st st' : scan_state)
  (filename : string) (zf : zipfile) :
  process_file dir st (filename, zf) = Ok st' ->
  exists out,
    printed st' = (printed st ++ out)%list /\
    added_lines out
    = option_list (announced {| src_dir := dir; src_filename := filename;
                                 src_zip := zf |}) /\
    scanning_lines out = [].
Proof.
  unfold process_file, announced, qualifies, metadata.
  cbn [src_dir src_filename src_zip].
  destruct (endswith filename ".zip"); cbn [andb negb];
    [| intros [= <-]; exists []; by rewrite (right_id_L [] (++)%list)].
  destruct (startswith filename "vpm."); cbn [negb];
    [| intros [= <-]; exists []; by rewrite (right_id_L [] (++)%list)].
  destruct (extract_version_from_filename filename) as [v|];
    cbn [mbind option_bind];
    [| intros [= <-]; by exists [WarnNoVersion filename]].
  pose proof (reader_prints (path_join dir filename) zf) as [Ha Hs].
  destruct (extract_package_info (path_join dir filename) zf) as [pi out].
  cbn [fst snd] in *.
  destruct pi as [| | | | |info]; try done.
  - intros [= <-]. by exists out.
  - destruct (truthy (Dict.get info "name")); cbn [negb].
    + destruct (hash_key (Dict.get info "name")) as [k|]; [| done].
      rewrite download_url_eq. cbn [say packages printed mbind option_bind].
      destruct (_ !! k) as [p|]; [| done]. intros [= <-]. cbn [printed].
      exists (out ++ [Added (Dict.get info "name") v])%list.
      rewrite (assoc_L (++)%list), added_lines_app, scanning_lines_app, Ha, Hs.
      done.
    + intros [= <-]. cbn [say printed].
      exists (out ++ [WarnNoName (path_join dir filename)])%list.
      rewrite (assoc_L (++)%list), added_lines_app, scanning_lines_app, Ha, Hs.
      done.
Qed.

Lemma scan_listing_log (dir : string) (listing : list (string * zipfile))
  (st st' : scan_state) :
  for_each (process_file dir) st listing = Ok st' ->
  exists out,
    printed st' = (printed st ++ out)%list /\
    added_lines out
    = omap announced
        (map (fun e => {| src_dir := dir; src_filename := e.1;
                          src_zip := e.2 |}) listing) /\
    scanning_lines out = [].
Proof.
  revert st. induction listing as [|[filename zf] listing IH]; intros st.
  - intros [= <-]. exists []. by rewrite (right_id_L [] (++)%list).
  - cbn [for_each map fst snd].
    destruct (process_file dir st (filename, zf)) as [st1|e] eqn:E; [| done].
    intros (out2 & Hp2 & Ha2 & Hs2)%IH.
    apply process_file_log in E as (out1 & Hp1 & Ha1 & Hs1).
    exists (out1 ++ out2)%list.
    rewrite Hp2, Hp1, (assoc_L (++)%list), added_lines_app, scanning_lines_app.
    rewrite Ha1, Ha2, Hs1, Hs2. split; [done |]. split; [| done].
    cbn [omap list_omap]. by destruct (announced _).
Qed.

Lemma scan_item_log (st st' : scan_state) (item : string * node) :
  scan_item st item = Ok st' ->
  exists out,
    printed st' = (printed st ++ out)%list /\
    added_lines out = omap announced (item_sources item) /\
    scanning_lines out = if visible item then [item.1] else [].
Proof.
  destruct item as [name [|listing]];
    unfold scan_item, item_sources, visible; cbn [fst snd].
  - intros [= <-]. exists []. by rewrite (right_id_L [] (++)%list).
  - destruct (startswith name "."); cbn [negb].
    + intros [= <-]. exists []. by rewrite (right_id_L [] (++)%list).
    + intros (out & Hp & Ha & Hs)%scan_listing_log. cbn [say printed] in Hp.
      exists (ScanningDirectory name :: out).
      rewrite Hp, <- (assoc_L (++)%list). split; [done |].
      change (ScanningDirectory name :: out)
        with ([ScanningDirectory name] ++ out)%list.
      rewrite added_lines_app, scanning_lines_app, Ha, Hs. done.
Qed.

Lemma scan_tree_log (t : tree) (st st' : scan_state) :
  for_each scan_item st t = Ok st' ->
  exists out,
    printed st' = (printed st ++ out)%list /\
    added_lines out = omap announced (sources t) /\
    scanning_lines out = visible_dirs t.
Proof.
  revert st. induction t as [|item t IH]; intros st.
  - intros [= <-]. exists []. by rewrite (right_id_L [] (++)%list).
  - cbn [for_each].
    destruct (scan_item st item) as [st1|e] eqn:E; [| done].
    intros (out2 & Hp2 & Ha2 & Hs2)%IH.
    apply scan_item_log in E as (out1 & Hp1 & Ha1 & Hs1).
    exists (out1 ++ out2)%list.
    rewrite Hp2, Hp1, (assoc_L (++)%list), added_lines_app, scanning_lines_app.
    rewrite Ha1, Ha2, Hs1, Hs2. split; [done |].
    unfold sources, visible_dirs. cbn [flat_map List.filter].
    rewrite omap_app. split; [done |].
    by destruct (visible item).
Qed.



(** X6.  After a scan that returns, the [Scanning directory] lines printed
    are the top-level directories whose name does not start with a dot, in
    listing order, each once, whether or not it holds an archive. *)
Theorem scanning_lines_are_visible_dirs (t : tree) (st : scan_state) :
  scan_packages t = Ok st ->
  scanning_lines (printed st) = visible_dirs t.
Proof.
  intros (out & Hp & _ & Hs)%scan_tree_log. cbn [initial_state printed] in Hp.
  by rewrite Hp.
Qed.

End ScannerLog.

(** ** Package Scanner: what is skipped and how scans compose *)

Section ScannerEdges.
Context {db : Unicode}.
Import PyStr PyStrFacts.

Variable py_repr : json -> string.

Abbreviation process_file := (process_file py_repr).
Abbreviation scan_item := (scan_item py_repr).
Abbreviation scan_packages := (scan_packages py_repr).

Lemma say_say (st : scan_state) (a b : list event) :
  say (say st a) b = say st (a ++ b)%list.
Proof. unfold say. cbn [packages printed]. by rewrite (assoc_L (++)%list). Qed.

Lemma for_each_app {A S : Type} (body : S -> A -> result S) (st : S)
  (l1 l2 : list A) :
  for_each body st (l1 ++ l2)
  = match for_each body st l1 with
    | Ok st1 => for_each body st1 l2
    | Raise e => Raise e
    end.
Proof.
  revert st. induction l1 as [|x l1 IH]; intros st; [done |].
  cbn [app for_each]. by destruct (body st x).
Qed.

Lemma scan_listing_idle (dir : string) (listing : list (string * zipfile))
  (st : scan_state) :
  (forall e, e ∈ listing -> qualifies e.1 = false) ->
  for_each (process_file dir) st listing = Ok st.
Proof.
  induction listing as [|[filename zf] listing IH]; intros H; [done |].
  cbn [for_each]. rewrite process_file_unqualified.
  - apply IH. intros e He. apply H. by right.
  - apply (H (filename, zf)). by left.
Qed.

Lemma scan_item_hidden (st : scan_state) (item : string * node) :
  visible item = false -> scan_item st item = Ok st.
Proof.
  destruct item as [name [|listing]]; unfold visible, scan_item;
    cbn [fst snd]; [done |].
  by destruct (startswith name ".").
Qed.

Lemma scan_tree_idle (t : tree) (st : scan_state) :
  (forall s, s ∈ sources t -> qualifies (src_filename s) = false) ->
  for_each scan_item st t
  = Ok (say st (map ScanningDirectory (visible_dirs t))).
Proof.
  revert st. induction t as [|item t IH]; intros st H.
  - unfold say. cbn [visible_dirs List.filter map for_each].
    by rewrite (right_id_L [] (++)%list); destruct st.
  - assert (forall s, s ∈ sources t -> qualifies (src_filename s) = false)
      as Ht.
    { intros s Hs. apply H. unfold sources. cbn [flat_map].
      apply elem_of_app. by right. }
    cbn [for_each]. unfold visible_dirs. cbn [List.filter].
    destruct (visible item) eqn:Ev.
    + destruct item as [name [|listing]]; unfold visible in Ev;
        cbn [fst snd] in Ev; [done |].
      apply negb_true_iff in Ev. unfold scan_item. rewrite Ev.
      rewrite scan_listing_idle.
      * rewrite (IH _ Ht), say_say. done.
      * intros [f zf] He.
        apply (H {| src_dir := name; src_filename := f; src_zip := zf |}).
        unfold sources. cbn [flat_map]. apply elem_of_app. left.
        unfold item_sources. cbn [fst snd]. rewrite Ev.
        apply (list_elem_of_fmap_2
                 (fun e => {| src_dir := name; src_filename := e.1;
                              src_zip := e.2 |}) _ _ He).
    + rewrite scan_item_hidden by done. by apply IH.
Qed.

(** X7.  When no file of a scanned directory passes the filename test, in
    an empty tree or in empty directories for instance, a scan that returns
    returns the empty mapping and has printed one line for each directory
    entered and nothing else. *)
Theorem scan_without_archives (t : tree) (st : scan_state) :
  scan_packages t = Ok st ->
  (forall s, s ∈ sources t -> qualifies (src_filename s) = false) ->
  packages st = ∅ /\
  printed st = map ScanningDirectory (visible_dirs t).
Proof.
  intros Hst H. unfold scan_packages in Hst.
  rewrite (scan_tree_idle t initial_state H) in Hst.
  by injection Hst as <-.
Qed.

Lemma scan_tree_visible (t : tree) (st : scan_state) :
  for_each scan_item st t = for_each scan_item st (List.filter visible t).
Proof.
  revert st. induction t as [|item t IH]; intros st; [done |].
  cbn [List.filter for_each]. destruct (visible item) eqn:Ev.
  - cbn [for_each]. by destruct (scan_item st item).
  - by rewrite scan_item_hidden.
Qed.

(** X8.  Only directories are entered: a name at the top level that is not
    a directory, even one named like an archive, and a directory whose
    name starts with a dot can be removed from the listing without
    changing what the scan returns, prints or raises. *)
Theorem scan_enters_visible_dirs_only (t : tree) :
  scan_packages t = scan_packages (List.filter visible t).
Proof. apply scan_tree_visible. Qed.

(** X9.  An archive that passes the filename test and is not recorded
    changes nothing of the mapping, and, when no exception escapes, prints
    exactly one line: no version in the name, archive unreadable, no root
    metadata file, or no name.  The one exception is metadata that parses
    to [null], which is skipped without a line. *)
Theorem skipped_archive_prints_one_line (dir : string) (st st' : scan_state)
  (filename : string) (zf : zipfile) :
  process_file dir st (filename, zf) = Ok st' ->
  qualifies filename = true ->
  announced {| src_dir := dir; src_filename := filename; src_zip := zf |}
  = None ->
  packages st' = packages st /\
  ((exists e,
      printed st' = (printed st ++ [e])%list /\
      (e = WarnNoVersion filename \/
       e = ErrorReading (path_join dir filename) \/
       e = WarnNoPackageJson (path_join dir filename) \/
       e = WarnNoName (path_join dir filename))) \/
   (printed st' = printed st /\
    exists z p, zf = Zip z /\ find_package_json z = Some p /\
                read_json z p = ReadOk JNull)).
Proof.
  unfold process_file, announced, qualifies, metadata.
  cbn [src_dir src_filename src_zip].
  intros H [Hzip Hvpm]%andb_true_iff. rewrite Hzip, Hvpm in *.
  cbn [andb negb] in *.
  destruct (extract_version_from_filename filename) as [v|];
    cbn [mbind option_bind].
  2:{ injection H as <-. intros _. split; [done |]. left.
      exists (WarnNoVersion filename). split; [done |]. by left. }
  destruct zf as [|z]; cbn [extract_package_info fst snd] in *.
  { injection H as <-. intros _. split; [done |]. left.
    exists (ErrorReading (path_join dir filename)).
    split; [done |]. right. by left. }
  destruct (find_package_json z) as [p|] eqn:Ef; cbn [fst snd] in *.
  2:{ injection H as <-. intros _. split; [done |]. left.
      exists (WarnNoPackageJson (path_join dir filename)).
      split; [done |]. right. right. by left. }
  destruct (read_json z p) as [|data] eqn:Er; cbn [fst snd] in *.
  { injection H as <-. intros _. split; [done |]. left.
    exists (ErrorReading (path_join dir filename)).
    split; [done |]. right. by left. }
  destruct data as [| | | | |info]; try done.
  - injection H as <-. intros _. split; [done |]. right.
    cbn [say printed]. rewrite (right_id_L [] (++)%list).
    split; [done |]. by exists z, p.
  - destruct (truthy (Dict.get info "name")); cbn [negb] in *.
    + destruct (hash_key (Dict.get info "name")); [done | done].
    + injection H as <-. intros _. split; [done |]. left.
      exists (WarnNoName (path_join dir filename)).
      cbn [say printed]. rewrite (right_id_L [] (++)%list).
      split; [done |]. right. right. by right.
Qed.

(** X10.  Scanning a longer listing continues the scan of its first part:
    if the scan of [t1 ++ t2] returns, so does the scan of [t1]; what the
    longer scan printed starts with what the shorter one printed, its
    mapping is the shorter one's with the contributions of [t2] written
    over it, and no package version of the shorter scan is missing from
    the longer one. *)
Theorem scan_extends (t1 t2 : tree) (st : scan_state) :
  scan_packages (t1 ++ t2) = Ok st ->
  exists st1,
    scan_packages t1 = Ok st1 /\
    (exists out, printed st = (printed st1 ++ out)%list) /\
    packages st = record_all py_repr (packages st1) (sources t2) /\
    forall k v,
      is_Some (lookup_version (packages st1) k v) ->
      is_Some (lookup_version (packages st) k v).
Proof.
  unfold scan_packages. rewrite for_each_app.
  destruct (for_each scan_item initial_state t1) as [st1|e]; [| done].
  intros H. exists st1. split; [done |].
  pose proof (scan_tree_packages py_repr t2 st1 st H) as Hpk.
  split; [| split; [exact Hpk |]].
  - apply scan_tree_log in H as (out & Hp & _). by exists out.
  - intros k v Hkv. rewrite Hpk. by apply record_all_keeps.
Qed.

End ScannerEdges.

(** ** Package Scanner: the records and the order of the scan *)

Section ScannerRecords.
Context {db : Unicode}.
Import PyStr PyStrFacts.

Variable py_repr : json -> string.

Abbreviation py_format := (py_format py_repr).
Abbreviation contribution := (contribution py_repr).
Abbreviation record_all := (record_all py_repr).
Abbreviation scan_packages := (scan_packages py_repr).
Abbreviation generate_index := (generate_index py_repr).




(** X12.  Every Version Record of an emitted index is filed under its own
    name: its [name] field is a value that is true in a condition and that
    hashes to the package key the record is found under. *)
Theorem emitted_record_filed_under_its_name (t : tree) (idx : index)
  (k : pykey) (p : package_record) (v : string) (r : version_info) :
  generate_index t = Ok idx ->
  idx_packages idx !! k = Some p ->
  versions p !! v = Some r ->
  exists name,
    Dict.lookup r "name" = Some name /\ truthy name = true /\
    hash_key name = Some k.
Proof.
  intros Hidx Hp Hv.
  destruct (index_provenance py_repr t idx k p v r Hidx Hp Hv) as (s & Hin & Hc).
  apply contribution_spec in Hc as (_ & _ & info & _ & Ht & Hk & ->).
  exists (Dict.get info "name"). split; [apply version_info_fields | done].
Qed.

(** X13.  Every version key of an emitted index is three non-empty
    sequences of digits joined by dots, a digit being a character [\d]
    accepts (an ASCII digit or any other Unicode decimal digit), and the
    URL of the record under it ends with a hyphen, that version and
    [.zip]: inside the scan the extractor only sees names that end with the
    extension. *)
Theorem emitted_url_ends_with_version (t : tree) (idx : index)
  (k : pykey) (p : package_record) (v : string) (r : version_info) :
  generate_index t = Ok idx ->
  idx_packages idx !! k = Some p ->
  versions p !! v = Some r ->
  dotted_version v /\
  exists url pre,
    Dict.lookup r "url" = Some (JStr url) /\
    url = pre ++ "-" ++ v ++ ".zip".
Proof.
  intros Hidx Hp Hv.
  destruct (index_provenance py_repr t idx k p v r Hidx Hp Hv) as (s & Hin & Hc).
  apply contribution_spec in Hc as (Hq & Hver & info & _ & _ & _ & ->).
  apply andb_true_iff in Hq as [Hzip _].
  destruct (extract_version_zip _ _ Hzip Hver) as (Hd & pre & Hf).
  split; [done |].
  exists (url_prefix ++ py_format (Dict.get info "displayName")
          ++ "/" ++ src_filename s),
         (url_prefix ++ py_format (Dict.get info "displayName") ++ "/" ++ pre).
  split; [apply version_info_fields |].
  rewrite Hf at 1. rewrite app_empty_r.
  by repeat first [rewrite app_assoc | progress simpl].
Qed.

(** Two mappings without empty packages are equal when they hold the same
    records. *)
Lemma packages_eq (pk1 pk2 : gmap pykey package_record) :
  all_nonempty pk1 -> all_nonempty pk2 ->
  (forall k v, lookup_version pk1 k v = lookup_version pk2 k v) ->
  pk1 = pk2.
Proof.
  intros H1 H2 H. apply map_eq. intros k.
  destruct (pk1 !! k) as [[vs1]|] eqn:E1, (pk2 !! k) as [[vs2]|] eqn:E2.
  - do 2 f_equal. apply map_eq. intros v. specialize (H k v).
    unfold lookup_version in H. by rewrite E1, E2 in H.
  - destruct (map_choose vs1) as (v & r & Hv); [apply (H1 _ _ E1) |].
    specialize (H k v). unfold lookup_version in H.
    rewrite E1, E2 in H. cbn in H. congruence.
  - destruct (map_choose vs2) as (v & r & Hv); [apply (H2 _ _ E2) |].
    specialize (H k v). unfold lookup_version in H.
    rewrite E1, E2 in H. cbn in H. congruence.
  - done.
Qed.

(** When the archives agree, an entry is in the fold exactly if some
    archive writes it. *)
Lemma record_all_agree (l : list source) (k : pykey) (v : string)
  (r : version_info) :
  agree py_repr l ->
  lookup_version (record_all ∅ l) k v = Some r <->
  exists s, s ∈ l /\ contribution s = Some (k, v, r).
Proof.
  intros Hagree. split.
  - intros [H | H]%record_all_lookup_inv; [| done].
    unfold lookup_version in H. by rewrite lookup_empty in H.
  - intros (s & Hin & Hc).
    destruct (record_all_present py_repr ∅ l s k v r Hin Hc) as [r' Hr'].
    pose proof Hr' as [H | (s' & Hin' & Hc')]%record_all_lookup_inv.
    + unfold lookup_version in H. by rewrite lookup_empty in H.
    + by rewrite Hr', (Hagree s s' k v r r' Hin Hin' Hc Hc').
Qed.

(** X14.  The order of the listings does not matter when the archives
    agree: two scans that return, over trees whose archives are the same
    up to order, give the same mapping, provided no two archives write
    different records at the same package and version. *)
Theorem scan_order_irrelevant (t1 t2 : tree) (st1 st2 : scan_state) :
  scan_packages t1 = Ok st1 ->
  scan_packages t2 = Ok st2 ->
  sources t1 ≡ₚ sources t2 ->
  agree py_repr (sources t1) ->
  packages st1 = packages st2.
Proof.
  intros H1 H2 Hperm Hagree.
  assert (agree py_repr (sources t2)) as Hagree2.
  { intros s s' k v r r' Hs Hs'. rewrite <- Hperm in Hs, Hs'.
    by apply Hagree. }
  rewrite (scan_packages_record_all _ _ _ H1),
    (scan_packages_record_all _ _ _ H2).
  apply packages_eq.
  - apply record_all_nonempty, all_nonempty_empty.
  - apply record_all_nonempty, all_nonempty_empty.
  - intros k v. apply option_eq. intros r.
    rewrite !record_all_agree by done.
    split; intros (s & Hs & Hc); exists s; (split; [| done]).
    + by rewrite <- Hperm.
    + by rewrite Hperm.
Qed.

End ScannerRecords.

(** ** The further properties at sample inputs *)

Section MoreWitnesses.
#[local] Existing Instance Samples.unicode_sample.
Import Samples.


(** The scan of [tree_idle] enters [empty] and [docs], not [.git] and not
    the file at the top level. *)
Lemma scanning_lines_are_visible_dirs_witness :
  scan_packages no_repr tree_idle = Ok (scanned tree_idle) /\
  scanning_lines (printed (scanned tree_idle)) = ["empty"; "docs"].
Proof.
  assert (scan_packages no_repr tree_idle = Ok (scanned tree_idle))
    as H by (vm_compute; reflexivity).
  split; [exact H |].
  exact (scanning_lines_are_visible_dirs no_repr tree_idle
           (scanned tree_idle) H).
Defined.


Lemma scan_without_archives_witness :
  scan_packages no_repr tree_idle = Ok (scanned tree_idle) /\
  (forall s, s ∈ sources tree_idle -> qualifies (src_filename s) = false) /\
  packages (scanned tree_idle) = ∅ /\
  printed (scanned tree_idle)
  = [ScanningDirectory "empty"; ScanningDirectory "docs"].
Proof.
  assert (scan_packages no_repr tree_idle = Ok (scanned tree_idle))
    as H1 by (vm_compute; reflexivity).
  assert (forall s, s ∈ sources tree_idle ->
                    qualifies (src_filename s) = false) as H2.
  { intros s Hs. apply list_elem_of_singleton in Hs as ->. reflexivity. }
  split; [exact H1 |]. split; [exact H2 |].
  exact (scan_without_archives no_repr tree_idle (scanned tree_idle) H1 H2).
Defined.

(** A file that is no archive: one error line, nothing recorded. *)
Lemma skipped_archive_prints_one_line_witness :
  process_file no_repr "a" initial_state (broken_100, NotAZip)
  = Ok (say initial_state [ErrorReading (path_join "a" broken_100)]) /\
  qualifies broken_100 = true /\
  announced {| src_dir := "a"; src_filename := broken_100;
               src_zip := NotAZip |} = None /\
  packages (say initial_state [ErrorReading (path_join "a" broken_100)])
  = packages initial_state /\
  ((exists e,
      printed (say initial_state [ErrorReading (path_join "a" broken_100)])
      = (printed initial_state ++ [e])%list /\
      (e = WarnNoVersion broken_100 \/
       e = ErrorReading (path_join "a" broken_100) \/
       e = WarnNoPackageJson (path_join "a" broken_100) \/
       e = WarnNoName (path_join "a" broken_100))) \/
   (printed (say initial_state [ErrorReading (path_join "a" broken_100)])
    = printed initial_state /\
    exists z p, NotAZip = Zip z /\ find_package_json z = Some p /\
                read_json z p = ReadOk JNull)).
Proof.
  assert (process_file no_repr "a" initial_state (broken_100, NotAZip)
          = Ok (say initial_state [ErrorReading (path_join "a" broken_100)]))
    as H1 by reflexivity.
  assert (qualifies broken_100 = true) as H2 by reflexivity.
  assert (announced {| src_dir := "a"; src_filename := broken_100;
                       src_zip := NotAZip |} = None) as H3 by reflexivity.
  split; [exact H1 |]. split; [exact H2 |]. split; [exact H3 |].
  exact (skipped_archive_prints_one_line no_repr "a" initial_state _
           broken_100 NotAZip H1 H2 H3).
Defined.

(** The scan of [tree_versions] continues the scan of its first
    directory. *)
Lemma scan_extends_witness :
  scan_packages no_repr
    ([("a", Dir [(cool_100, zip_of (JObj meta_cool));
                 (cool_110, zip_of (JObj meta_cool))])]
     ++ [("b", Dir [(cool_100, zip_of (JObj meta_cool_again))])])
  = Ok (scanned tree_versions) /\
  exists st1,
    scan_packages no_repr
      [("a", Dir [(cool_100, zip_of (JObj meta_cool));
                  (cool_110, zip_of (JObj meta_cool))])] = Ok st1 /\
    (exists out, printed (scanned tree_versions) = (printed st1 ++ out)%list) /\
    packages (scanned tree_versions)
    = record_all no_repr (packages st1)
        (sources [("b", Dir [(cool_100, zip_of (JObj meta_cool_again))])]) /\
    forall k v,
      is_Some (lookup_version (packages st1) k v) ->
      is_Some (lookup_version (packages (scanned tree_versions)) k v).
Proof.
  assert (scan_packages no_repr
            ([("a", Dir [(cool_100, zip_of (JObj meta_cool));
                         (cool_110, zip_of (JObj meta_cool))])]
             ++ [("b", Dir [(cool_100, zip_of (JObj meta_cool_again))])])
          = Ok (scanned tree_versions)) as H by (vm_compute; reflexivity).
  split; [exact H |].
  exact (scan_extends no_repr _ _ _ H).
Defined.


Lemma emitted_record_filed_under_its_name_witness :
  generate_index no_repr tree_cool = Ok (indexed tree_cool) /\
  idx_packages (indexed tree_cool) !! cool_key = Some cool_package /\
  versions cool_package !! "1.2.3" = Some cool_record /\
  exists name,
    Dict.lookup cool_record "name" = Some name /\ truthy name = true /\
    hash_key name = Some cool_key.
Proof.
  assert (generate_index no_repr tree_cool = Ok (indexed tree_cool)) as H1
    by (vm_compute; reflexivity).
  assert (idx_packages (indexed tree_cool) !! cool_key = Some cool_package)
    as H2 by (vm_compute; reflexivity).
  assert (versions cool_package !! "1.2.3" = Some cool_record) as H3
    by (vm_compute; reflexivity).
  split; [exact H1 |]. split; [exact H2 |]. split; [exact H3 |].
  exact (emitted_record_filed_under_its_name no_repr tree_cool
           (indexed tree_cool) cool_key cool_package "1.2.3" cool_record
           H1 H2 H3).
Defined.

Lemma emitted_url_ends_with_version_witness :
  generate_index no_repr tree_cool = Ok (indexed tree_cool) /\
  idx_packages (indexed tree_cool) !! cool_key = Some cool_package /\
  versions cool_package !! "1.2.3" = Some cool_record /\
  dotted_version "1.2.3" /\
  exists url pre,
    Dict.lookup cool_record "url" = Some (JStr url) /\
    url = pre ++ "-" ++ "1.2.3" ++ ".zip".
Proof.
  assert (generate_index no_repr tree_cool = Ok (indexed tree_cool)) as H1
    by (vm_compute; reflexivity).
  assert (idx_packages (indexed tree_cool) !! cool_key = Some cool_package)
    as H2 by (vm_compute; reflexivity).
  assert (versions cool_package !! "1.2.3" = Some cool_record) as H3
    by (vm_compute; reflexivity).
  split; [exact H1 |]. split; [exact H2 |]. split; [exact H3 |].
  exact (emitted_url_ends_with_version no_repr tree_cool
           (indexed tree_cool) cool_key cool_package "1.2.3" cool_record
           H1 H2 H3).
Defined.

(** [tree_forth] and [tree_back] list the same archives in opposite
    orders and give the same mapping. *)
Lemma scan_order_irrelevant_witness :
  scan_packages no_repr tree_forth = Ok (scanned tree_forth) /\
  scan_packages no_repr tree_back = Ok (scanned tree_back) /\
  sources tree_forth ≡ₚ sources tree_back /\
  agree no_repr (sources tree_forth) /\
  packages (scanned tree_forth) = packages (scanned tree_back).
Proof.
  assert (scan_packages no_repr tree_forth = Ok (scanned tree_forth))
    as H1 by (vm_compute; reflexivity).
  assert (scan_packages no_repr tree_back = Ok (scanned tree_back))
    as H2 by (vm_compute; reflexivity).
  assert (sources tree_forth ≡ₚ sources tree_back) as H3
    by exact (Permutation_rev [source_a100; source_a110; full_source]).
  assert (agree no_repr (sources tree_forth)) as H4.
  { intros s s' k v r r' Hs Hs' Hc Hc'.
    change (sources tree_forth)
      with [source_a100; source_a110; full_source] in Hs, Hs'.
    repeat (apply elem_of_cons in Hs as [-> | Hs]);
      [| | | by apply elem_of_nil in Hs];
      (repeat (apply elem_of_cons in Hs' as [-> | Hs']);
       [| | | by apply elem_of_nil in Hs']);
      vm_compute in Hc, Hc'; congruence. }
  split; [exact H1 |]. split; [exact H2 |]. split; [exact H3 |].
  split; [exact H4 |].
  exact (scan_order_irrelevant no_repr tree_forth tree_back
           (scanned tree_forth) (scanned tree_back) H1 H2 H3 H4).
Defined.

End MoreWitnesses.
